(** * Soulene conversation safety pipeline: a shallow embedding

    The development follows [soulene_server.py].  Python values keep their
    dynamic shape ([pyval]), strings are sequences of 8-bit characters (the
    model is exact on ASCII text; [lower] and whitespace are the ASCII ones),
    dictionaries keyed by session id are finite maps, exceptions are an
    explicit [result], and the mutable server objects are threaded through a
    small state-and-exception monad in which a raised exception keeps the
    mutations made so far, as in Python. *)

From Stdlib Require Import ZArith Ascii String List Bool Lia.
From Stdlib Require Import Floats.PrimFloat.
From stdpp Require Import base option list gmap strings.

Local Open Scope string_scope.
Local Open Scope list_scope.
Local Open Scope Z_scope.

(** ** Text primitives (Python [str] methods used by the server) *)

Module Text.

Definition lower_char (c : ascii) : ascii :=
  let n := nat_of_ascii c in
  if ((65 <=? n)%nat && (n <=? 90)%nat)%bool then ascii_of_nat (n + 32) else c.

(** [s.lower()] *)
Fixpoint lower (s : string) : string :=
  match s with
  | EmptyString => EmptyString
  | String c s' => String (lower_char c) (lower s')
  end.

(** [s.startswith(p)] *)
Fixpoint startswith (p s : string) : bool :=
  match p, s with
  | EmptyString, _ => true
  | String _ _, EmptyString => false
  | String a p', String b s' => if Ascii.eqb a b then startswith p' s' else false
  end.

(** [sub in s] *)
Fixpoint contains (sub s : string) : bool :=
  match s with
  | EmptyString => startswith sub EmptyString
  | String _ s' => startswith sub s || contains sub s'
  end.

(** [s.endswith(p)] *)
Fixpoint endswith (p s : string) : bool :=
  match s with
  | EmptyString => String.eqb p EmptyString
  | String _ s' => String.eqb p s || endswith p s'
  end.

(** The scan of [str.replace] for a non-empty [old]: [skip] counts the
    characters of a match that is being stepped over. *)
Fixpoint replace_go (old new : string) (skip : nat) (s : string) : string :=
  match s with
  | EmptyString => EmptyString
  | String c s' =>
      match skip with
      | S k => replace_go old new k s'
      | O =>
          if startswith old s
          then new +:+ replace_go old new (String.length old - 1) s'
          else String c (replace_go old new O s')
      end
  end.

Fixpoint interleave (new s : string) : string :=
  match s with
  | EmptyString => new
  | String c s' => new +:+ String c (interleave new s')
  end.

(** [s.replace(old, new)]: every non-overlapping occurrence, leftmost first. *)
Definition replace (old new s : string) : string :=
  match old with
  | EmptyString => interleave new s
  | String _ _ => replace_go old new O s
  end.

(** [str.isspace] on one ASCII character: tab, LF, VT, FF, CR, FS..US, space. *)
Definition is_space (c : ascii) : bool :=
  let n := nat_of_ascii c in
  (((9 <=? n)%nat && (n <=? 13)%nat) || ((28 <=? n)%nat && (n <=? 32)%nat))%bool.

Fixpoint lstrip_by (drop : ascii -> bool) (s : string) : string :=
  match s with
  | EmptyString => EmptyString
  | String c s' => if drop c then lstrip_by drop s' else s
  end.

Fixpoint rstrip_by (drop : ascii -> bool) (s : string) : string :=
  match s with
  | EmptyString => EmptyString
  | String c s' =>
      match rstrip_by drop s' with
      | EmptyString => if drop c then EmptyString else String c EmptyString
      | r => String c r
      end
  end.

Definition strip_by (drop : ascii -> bool) (s : string) : string :=
  rstrip_by drop (lstrip_by drop s).

(** [s.strip()], [s.rstrip()] *)
Definition strip : string -> string := strip_by is_space.
Definition rstrip : string -> string := rstrip_by is_space.

Fixpoint mem_char (c : ascii) (chars : string) : bool :=
  match chars with
  | EmptyString => false
  | String d chars' => Ascii.eqb c d || mem_char c chars'
  end.

(** [s.strip(chars)] *)
Definition strip_chars (chars s : string) : string :=
  strip_by (fun c => mem_char c chars) s.

(** [s.split(sep)] for a non-empty [sep]: the first piece and the others. *)
Fixpoint split_go (sep : string) (skip : nat) (s : string) : string * list string :=
  match s with
  | EmptyString => (EmptyString, [])
  | String c s' =>
      match skip with
      | S k => split_go sep k s'
      | O =>
          if startswith sep s
          then (EmptyString,
                let '(p, ps) := split_go sep (String.length sep - 1) s' in p :: ps)
          else let '(p, ps) := split_go sep O s' in (String c p, ps)
      end
  end.

Definition split (sep s : string) : list string :=
  let '(p, ps) := split_go sep O s in p :: ps.

(** [s.split(sep, 1)]: at most one cut, at the leftmost occurrence. *)
Fixpoint split_once (sep s : string) : list string :=
  match s with
  | EmptyString => if startswith sep s then [EmptyString; EmptyString] else [EmptyString]
  | String c s' =>
      if startswith sep s
      then [EmptyString; String.substring (String.length sep) (String.length s) s]
      else match split_once sep s' with
           | p :: ps => String c p :: ps
           | [] => [String c EmptyString]
           end
  end.

(** [s.split()]: the maximal runs of non-whitespace characters. *)
Fixpoint words_go (s : string) : option string * list string :=
  match s with
  | EmptyString => (None, [])
  | String c s' =>
      let '(w, ws) := words_go s' in
      if is_space c
      then (None, match w with Some x => x :: ws | None => ws end)
      else (Some (String c (default EmptyString w)), ws)
  end.

Definition words (s : string) : list string :=
  let '(w, ws) := words_go s in
  match w with Some x => x :: ws | None => ws end.

(** [sep.join(parts)] *)
Fixpoint join (sep : string) (parts : list string) : string :=
  match parts with
  | [] => EmptyString
  | [p] => p
  | p :: ps => p +:+ sep +:+ join sep ps
  end.

(** [s.find(c)] for a one-character needle, [-1] when absent. *)
Fixpoint find_char (c : ascii) (s : string) : Z :=
  match s with
  | EmptyString => -1
  | String d s' =>
      if Ascii.eqb c d then 0
      else let r := find_char c s' in if r <? 0 then -1 else r + 1
  end.

(** [s.rfind(c)] for a one-character needle, [-1] when absent. *)
Fixpoint rfind_char (c : ascii) (s : string) : Z :=
  match s with
  | EmptyString => -1
  | String d s' =>
      let r := rfind_char c s' in
      if 0 <=? r then r + 1 else if Ascii.eqb c d then 0 else -1
  end.

(** A Python slice bound, clamped into [0 .. len]. *)
Definition clamp (len i : Z) : Z :=
  if i <? 0 then Z.max (len + i) 0 else Z.min i len.

(** [s[i:j]] *)
Definition slice (i j : Z) (s : string) : string :=
  let len := Z.of_nat (String.length s) in
  let a := clamp len i in
  let b := clamp len j in
  String.substring (Z.to_nat a) (Z.to_nat (b - a)) s.

(** [s[:n]] for a literal [n >= 0] *)
Definition take (n : nat) (s : string) : string := String.substring 0 n s.

Definition nonempty (s : string) : bool :=
  match s with EmptyString => false | String _ _ => true end.

End Text.

(** [l[i:]] on a list, with Python's reading of a negative start. *)
Definition slice_from {A} (i : Z) (l : list A) : list A :=
  drop (Z.to_nat (Text.clamp (Z.of_nat (length l)) i)) l.

(** ** Python values, exceptions, results *)

(** What [json.loads] can return, and what the handlers pass around. *)
#[warnings="-register-all"]
Inductive pyval : Type :=
| PyNone
| PyBool (b : bool)
| PyInt (z : Z)
| PyFloat (f : float)
| PyStr (s : string)
| PyList (l : list pyval)
| PyDict (d : list (string * pyval)).

(** Python's truth value of an object, as tested by [if], [and], [or], [not]. *)
Definition truthy (v : pyval) : bool :=
  match v with
  | PyNone => false
  | PyBool b => b
  | PyInt z => negb (z =? 0)
  | PyFloat f => negb (PrimFloat.eqb f PrimFloat.zero)
  | PyStr s => Text.nonempty s
  | PyList l => match l with [] => false | _ :: _ => true end
  | PyDict d => match d with [] => false | _ :: _ => true end
  end.

Fixpoint assoc (k : string) (d : list (string * pyval)) : option pyval :=
  match d with
  | [] => None
  | (k', v) :: d' => if String.eqb k k' then Some v else assoc k d'
  end.

(** [d.get(k, dflt)] on a dict *)
Definition dict_get (d : list (string * pyval)) (k : string) (dflt : pyval) : pyval :=
  default dflt (assoc k d).

Inductive exn : Type :=
| AttributeError
| TypeError
| ValueError
| IndexError
| KeyError
| JSONDecodeError
| CapabilityError.

Inductive result (A : Type) : Type :=
| Ok (a : A)
| Raise (e : exn).
Arguments Ok {A} a.
Arguments Raise {A} e.

Definition rbind {A B} (r : result A) (k : A -> result B) : result B :=
  match r with Ok a => k a | Raise e => Raise e end.

(** [try: body  except Exception: handler] *)
Definition try_except {A} (body : result A) (handler : exn -> result A) : result A :=
  match body with Ok a => Ok a | Raise e => handler e end.

(** [l[i]] for a literal index [i >= 0] *)
Definition index {A} (l : list A) (i : nat) : result A :=
  match l !! i with Some x => Ok x | None => Raise IndexError end.

(** The Python library functions the server calls and the model does not
    unfold: [json.loads], [str()] of a non-string value inside an f-string,
    and [json.dumps(_, indent=2)]. *)
Class PyLib : Type := {
  json_loads : string -> result pyval;
  py_str : pyval -> string;
  json_dumps : pyval -> string
}.

(** [f"{v}"] *)
Definition fmt `{PyLib} (v : pyval) : string :=
  match v with PyStr s => s | _ => py_str v end.

(** The newline and the double quote, as one-character strings. *)
Definition nl : string := String "010"%char EmptyString.
Definition dq : string := String "034"%char EmptyString.

(** ** ConversationHistory *)

Record Turn : Type := mkTurn {
  role : string;
  content : string;
  timestamp : string
}.

Record ConversationHistory : Type := mkCH {
  max_length : Z;
  histories : gmap string (list Turn);
  loop_tracker : gmap string (list string)
}.

(** [ConversationHistory(max_length)] *)
Definition new_history (max_length : Z) : ConversationHistory :=
  mkCH max_length ∅ ∅.

(** [add_message]; [now] is the reading of [datetime.now().isoformat()]. *)
Definition add_message (session_id role content now : string)
    (ch : ConversationHistory) : ConversationHistory :=
  let h := default [] (histories ch !! session_id) ++ [mkTurn role content now] in
  let h' := if Z.of_nat (length h) >? max_length ch
            then slice_from (- max_length ch) h else h in
  mkCH (max_length ch) (<[session_id := h']> (histories ch)) (loop_tracker ch).

Definition get_history (session_id : string) (ch : ConversationHistory) : list Turn :=
  default [] (histories ch !! session_id).

Definition format_turn (msg : Turn) : string :=
  (if String.eqb (role msg) "user" then "User" else "Soulene")
    +:+ ": " +:+ content msg +:+ nl.

(** The loop body of [get_recent_context]: [context += ...] over the turns. *)
Definition format_turns (recent : list Turn) : string :=
  fold_left (fun context msg => context +:+ format_turn msg) recent EmptyString.

Definition recent_turns (limit : Z) (history : list Turn) : list Turn :=
  if Z.of_nat (length history) >? limit then slice_from (- limit) history else history.

Definition get_recent_context (session_id : string) (limit : Z)
    (ch : ConversationHistory) : string :=
  format_turns (recent_turns limit (get_history session_id ch)).

Definition grounding_keywords : list string :=
  ["breathe"; "breath"; "ground"; "present"; "room"; "sit"; "feet"].

(** [any(keyword in resp.lower() for keyword in grounding_keywords)] *)
Definition has_grounding (resp : string) : bool :=
  existsb (fun keyword => Text.contains keyword (Text.lower resp)) grounding_keywords.

(** [sum(1 for resp in recent_responses if ...)] *)
Fixpoint grounding_count (recent_responses : list string) : nat :=
  match recent_responses with
  | [] => 0%nat
  | resp :: rest => ((if has_grounding resp then 1 else 0) + grounding_count rest)%nat
  end.

(** [detect_loop]: the verdict and the object after the call. *)
Definition detect_loop (session_id new_response : string)
    (ch : ConversationHistory) : bool * ConversationHistory :=
  let tracker := match loop_tracker ch !! session_id with
                 | Some _ => loop_tracker ch
                 | None => <[session_id := []]> (loop_tracker ch)
                 end in
  let window := default [] (tracker !! session_id) in
  let recent_responses := slice_from (-3) window in
  if has_grounding new_response && (2 <=? grounding_count recent_responses)%nat
  then (true, mkCH (max_length ch) (histories ch) tracker)
  else
    let w := window ++ [new_response] in
    let w' := if (5 <? length w)%nat then slice_from (-5) w else w in
    (false, mkCH (max_length ch) (histories ch) (<[session_id := w']> tracker)).

Definition clear_session (session_id : string) (ch : ConversationHistory) : ConversationHistory :=
  mkCH (max_length ch) (delete session_id (histories ch)) (delete session_id (loop_tracker ch)).

(** ** Utility functions *)

Definition fence_json : string := "```json".
Definition fence : string := "```".

(** [clean_json_response]; the subscripts are kept as they are written, so
    the function is a [result]. *)
Definition clean_json_response (text : string) : result string :=
  let text := Text.strip text in
  rbind
    (if Text.contains fence_json text then
       rbind (index (Text.split fence_json text) 1) (fun a =>
       rbind (index (Text.split fence a) 0) (fun b => Ok (Text.strip b)))
     else if Text.contains fence text then
       rbind (index (Text.split fence text) 1) (fun a =>
       rbind (index (Text.split fence a) 0) (fun b => Ok (Text.strip b)))
     else Ok text)
    (fun text =>
       if Text.contains "{" text then
         let start := Text.find_char "{"%char text in
         let end_ := Text.rfind_char "}"%char text + 1 in
         Ok (Text.slice start end_ text)
       else Ok text).

(** [format_history_for_gemini]: each turn becomes (role, parts[0]). *)
Definition format_history_for_gemini (history : list Turn) : list (string * string) :=
  map (fun msg => (if String.eqb (role msg) "user" then "user" else "model", content msg))
      history.

(** The inner loop of [detect_user_location] over [enumerate(words)]. *)
Fixpoint location_in_words (words : list string) : option string :=
  match words with
  | [] => None
  | word :: rest =>
      if (String.eqb (Text.lower word) "in" || String.eqb (Text.lower word) "from")
      then match rest with
           | next :: _ => Some (Text.strip_chars ".,!?" next)
           | [] => location_in_words rest
           end
      else location_in_words rest
  end.

Fixpoint detect_user_location (history : list Turn) : option string :=
  match history with
  | [] => None
  | msg :: rest =>
      if String.eqb (role msg) "user" then
        let text := Text.lower (content msg) in
        if existsb (fun word => Text.contains word text) ["i live in"; "i am in"; "from"]
        then match location_in_words (Text.words (content msg)) with
             | Some loc => Some loc
             | None => detect_user_location rest
             end
        else detect_user_location rest
      else detect_user_location rest
  end.

(** ** The AI components *)

(** The dict [PreCheckCounter.analyze] returns: six fixed keys. *)
Record PreCheck : Type := mkPreCheck {
  risk_level : pyval;
  risk_type : pyval;
  requires_intervention : pyval;
  intervention_type : pyval;
  context_notes : pyval;
  block_response : pyval
}.

Definition pre_check_dict (p : PreCheck) : pyval :=
  PyDict [("risk_level", risk_level p); ("risk_type", risk_type p);
          ("requires_intervention", requires_intervention p);
          ("intervention_type", intervention_type p);
          ("context_notes", context_notes p);
          ("block_response", block_response p)].

(** The [except] branch of [analyze]. *)
Definition safe_pre_check : PreCheck :=
  mkPreCheck (PyStr "none") (PyStr "none") (PyBool false) (PyStr "none")
             (PyStr "") (PyBool false).

Definition pre_check_prompt (user_message recent_context : string) : string :=
  nl +:+ "RECENT CONVERSATION CONTEXT:" +:+ nl +:+ recent_context +:+ nl +:+ nl
     +:+ "CURRENT USER MESSAGE:" +:+ nl +:+ user_message +:+ nl +:+ nl
     +:+ "Analyze for safety risks and output JSON only." +:+ nl.

(** [PreCheckCounter.analyze]; [model] is [generate_content(prompt).text],
    which raises when the call or the access to [.text] does. *)
Definition PreCheckCounter_analyze `{PyLib} (model : string -> result string)
    (user_message recent_context : string) : result PreCheck :=
  try_except
    (rbind (model (pre_check_prompt user_message recent_context)) (fun response_text =>
     rbind (clean_json_response response_text) (fun result_text =>
     rbind (json_loads result_text) (fun result =>
     match result with
     | PyDict d =>
         Ok (mkPreCheck (dict_get d "risk_level" (PyStr "none"))
                        (dict_get d "risk_type" (PyStr "none"))
                        (dict_get d "requires_intervention" (PyBool false))
                        (dict_get d "intervention_type" (PyStr "none"))
                        (dict_get d "context_notes" (PyStr ""))
                        (dict_get d "block_response" (PyBool false)))
     | _ => Raise ValueError
     end))))
    (fun _ => Ok safe_pre_check).

Definition py_str_eq (v : pyval) (s : string) : bool :=
  match v with PyStr t => String.eqb t s | _ => false end.

(** [EmergencyDetector.detect]: (is_emergency, emergency_type, confidence). *)
Definition EmergencyDetector_detect `{PyLib} (model : string -> result string)
    (message : string) : result (bool * pyval * pyval) :=
  try_except
    (rbind (model message) (fun response_text =>
     rbind (clean_json_response response_text) (fun result_text =>
     rbind (json_loads result_text) (fun data =>
     match data with
     | PyDict d =>
         let is_emergency := dict_get d "is_emergency" (PyBool false) in
         let emergency_type := dict_get d "emergency_type" (PyStr "none") in
         let confidence := dict_get d "confidence" (PyStr "low") in
         if truthy is_emergency
            && (py_str_eq confidence "high" || py_str_eq confidence "medium")
         then Ok (true, emergency_type, confidence)
         else Ok (false, PyStr "none", confidence)
     | _ => Raise AttributeError
     end))))
    (fun _ => Ok (false, PyStr "none", PyStr "low")).

Definition emergency_token : string := "[EMERGENCY_NUMBER]".

Definition danger_indicators : list string :=
  ["going to kill myself"; "kill myself"; "i will kill"; "i will end";
   "i am going to jump"; "i am going to hurt myself"; "have pills ready";
   "ready to end it"].

Definition exhaustion_indicators : list string :=
  ["exhaust"; "tired"; "can't do this"; "done"; "wouldn't mind"; "wish i was gone"].

Definition urgent_line : string :=
  "Urgentâ€”call [EMERGENCY_NUMBER] now. Are you still there?".

(** [text.split('\n')[0]] *)
Definition first_line (text : string) : string :=
  fst (Text.split_go nl O text).

(** [SouleneAI._rule_based_response] *)
Definition rule_based_response (message : string) : string :=
  let text := Text.strip message in
  let lower := Text.lower text in
  if existsb (fun s => Text.contains s lower) danger_indicators then urgent_line
  else if existsb (fun s => Text.contains s lower) exhaustion_indicators then
    let fragment := Text.rstrip (Text.take 120 (first_line text)) in
    let fragment := if (String.length fragment <? 5)%nat
                    then "You're overwhelmed" else fragment in
    fragment +:+ "... That sounds brutal. You're reaching outâ€”that matters."
  else
    let fragment := Text.rstrip (Text.take 120 (first_line text)) in
    let fragment := if Text.nonempty fragment then fragment else "That sounds hard" in
    fragment +:+ "... I'm here with you. Tell me a bit more?".

(** [SouleneAI.generate_response]; [model] is
    [start_chat(history).send_message(message).text]. *)
Definition SouleneAI_generate_response
    (model : list (string * string) -> string -> result string)
    (message : string) (history : list Turn) : result string :=
  match try_except
          (rbind (model (format_history_for_gemini history) message)
                 (fun text => Ok (Some (Text.strip text))))
          (fun _ => Ok None)
  with
  | Ok (Some reply) => Ok reply
  | _ => Ok (rule_based_response message)
  end.

Definition refine_prompt `{PyLib} (conversation_context user_message draft_reply : string)
    (is_emergency : bool) (pre_check_data : PreCheck) : string :=
  nl +:+ "CONVERSATION CONTEXT (Last 10 messages):" +:+ nl +:+ conversation_context
     +:+ nl +:+ nl +:+ "CURRENT USER MESSAGE:" +:+ nl +:+ user_message
     +:+ nl +:+ nl +:+ "DRAFT REPLY FROM SOULENE:" +:+ nl +:+ draft_reply
     +:+ nl +:+ nl +:+ "IS THIS AN EMERGENCY SITUATION: "
     +:+ (if is_emergency then "True" else "False")
     +:+ nl +:+ nl +:+ "PRE-CHECK ANALYSIS:" +:+ nl
     +:+ json_dumps (pre_check_dict pre_check_data)
     +:+ nl +:+ nl +:+ "YOUR TASK:" +:+ nl
     +:+ "Analyze everything above and output ONLY the refined final reply that should be sent to the user."
     +:+ nl
     +:+ "Remember: Be human, be safe, be accurate. No explanations, just the refined reply."
     +:+ nl.

(** [CounterAI.refine]; [llm] is [invoke(format_messages(input)).content]. *)
Definition CounterAI_refine `{PyLib} (llm : string -> result string)
    (conversation_context user_message draft_reply : string)
    (is_emergency : bool) (pre_check_data : PreCheck) : result string :=
  let analysis_input :=
    refine_prompt conversation_context user_message draft_reply is_emergency pre_check_data in
  try_except
    (rbind (llm analysis_input) (fun content =>
     let refined_reply := Text.strip content in
     rbind (if Text.contains "refined reply:" (Text.lower refined_reply)
            then rbind (index (Text.split_once "refined reply:" refined_reply) 1)
                       (fun r => Ok (Text.strip r))
            else Ok refined_reply) (fun refined_reply =>
     Ok (if Text.startswith dq refined_reply && Text.endswith dq refined_reply
         then Text.slice 1 (-1) refined_reply else refined_reply))))
    (fun _ => Ok draft_reply).

(** ** EmergencyNumberService *)

Definition nonempty_opt (location : option string) : bool :=
  match location with Some l => Text.nonempty l | None => false end.

(** [location or dflt] *)
Definition or_default (location : option string) (dflt : string) : string :=
  match location with Some l => if Text.nonempty l then l else dflt | None => dflt end.

Definition search_prompt (location : option string) : string :=
  nl +:+ "Search and find the CORRECT emergency numbers for: "
     +:+ or_default location "India" +:+ nl +:+ nl
     +:+ "Find:" +:+ nl +:+ "1. Police emergency number" +:+ nl
     +:+ "2. Ambulance/Medical emergency number  " +:+ nl
     +:+ "3. Suicide prevention hotline (if available)" +:+ nl +:+ nl
     +:+ "Verify these are CURRENT and WORKING numbers (2025)." +:+ nl +:+ nl
     +:+ "Output ONLY this JSON format (nothing else):" +:+ nl +:+ "{" +:+ nl
     +:+ "  " +:+ dq +:+ "location" +:+ dq +:+ ": " +:+ dq +:+ "country/city name" +:+ dq
     +:+ "," +:+ nl
     +:+ "  " +:+ dq +:+ "police" +:+ dq +:+ ": " +:+ dq +:+ "number" +:+ dq +:+ "," +:+ nl
     +:+ "  " +:+ dq +:+ "medical" +:+ dq +:+ ": " +:+ dq +:+ "number" +:+ dq +:+ "," +:+ nl
     +:+ "  " +:+ dq +:+ "suicide_hotline" +:+ dq +:+ ": " +:+ dq
     +:+ "number or 'not available'" +:+ dq +:+ "," +:+ nl
     +:+ "  " +:+ dq +:+ "verified" +:+ dq +:+ ": true/false," +:+ nl
     +:+ "  " +:+ dq +:+ "source" +:+ dq +:+ ": " +:+ dq +:+ "where you found this info"
     +:+ dq +:+ nl +:+ "}" +:+ nl.

Definition default_info (location : option string) : list (string * pyval) :=
  [("location", PyStr (or_default location "India")); ("police", PyStr "100");
   ("medical", PyStr "102 or 108"); ("suicide_hotline", PyStr "AASRA 9820466726");
   ("verified", PyBool false); ("source", PyStr "default")].

(** [get_emergency_info]: the dict returned and the cache after the call. *)
Definition get_emergency_info `{PyLib} (model : string -> result string)
    (location : option string) (cache : gmap string (list (string * pyval)))
    : result (list (string * pyval)) * gmap string (list (string * pyval)) :=
  let cache_key := or_default location "default" in
  match cache !! cache_key with
  | Some info => (Ok info, cache)
  | None =>
      match rbind (model (search_prompt location)) (fun response_text =>
            rbind (clean_json_response response_text) (fun result_text =>
            rbind (json_loads result_text) (fun emergency_info =>
            match emergency_info with
            | PyDict d => Ok d
            | _ => Raise ValueError
            end)))
      with
      | Ok d => (Ok d, <[cache_key := d]> cache)
      | Raise _ =>
          (Ok (default_info location), <[cache_key := default_info location]> cache)
      end
  end.

(** [format_emergency_numbers] *)
Definition format_emergency_numbers `{PyLib} (info : list (string * pyval)) : string :=
  let medical := dict_get info "medical" PyNone in
  let police := dict_get info "police" PyNone in
  let suicide_hotline := dict_get info "suicide_hotline" (PyStr "") in
  let parts :=
    (if truthy medical then [fmt medical +:+ " (ambulance)"] else [])
    ++ (if truthy police then [fmt police +:+ " (police)"] else [])
    ++ (if truthy suicide_hotline && negb (py_str_eq suicide_hotline "not available")
        then [fmt suicide_hotline +:+ " (crisis line)"] else []) in
  match parts with
  | [] => "112 (international emergency)"
  | _ :: _ => Text.join " or " parts
  end.

(** ** The server *)

(** The component objects the server holds ([self.pre_check], ...), by the
    methods the chat handler calls on them.  A method may raise. *)
Record Components : Type := mkComponents {
  pre_check_analyze : string -> string -> result PreCheck;
  emergency_detect : string -> result (bool * pyval * pyval);
  soulene_generate : string -> list Turn -> result string;
  counter_refine : string -> string -> string -> bool -> PreCheck -> result string;
  emergency_info : option string -> gmap string (list (string * pyval))
                   -> result (list (string * pyval)) * gmap string (list (string * pyval));
  emergency_format : list (string * pyval) -> result string
}.

(** The external model calls behind the five components. *)
Record Capabilities : Type := mkCapabilities {
  pre_check_model : string -> result string;
  emergency_model : string -> result string;
  soulene_model : list (string * string) -> string -> result string;
  counter_llm : string -> result string;
  number_model : string -> result string
}.

(** The components [SouleneServer.__init__] builds. *)
Definition production `{PyLib} (caps : Capabilities) : Components :=
  mkComponents
    (PreCheckCounter_analyze (pre_check_model caps))
    (EmergencyDetector_detect (emergency_model caps))
    (SouleneAI_generate_response (soulene_model caps))
    (CounterAI_refine (counter_llm caps))
    (get_emergency_info (number_model caps))
    (fun info => Ok (format_emergency_numbers info)).

(** The calls the chat handler makes on its collaborators, in order. *)
Inductive Call : Type :=
| CallAnalyze (user_message recent_context : string)
| CallDetect (message : string)
| CallEmergencyInfo (location : option string)
| CallFormatNumbers (info : list (string * pyval))
| CallGenerate (message : string) (history : list Turn)
| CallRefine (conversation_context user_message draft_reply : string)
             (is_emergency : bool) (pre_check_data : PreCheck)
| CallDetectLoop (session_id new_response : string).

Record Server : Type := mkServer {
  conversation_history : ConversationHistory;
  user_locations : gmap string string;
  emergency_cache : gmap string (list (string * pyval));
  calls : list Call
}.

(** [SouleneServer()] with [Config.MAX_HISTORY_LENGTH = 50]. *)
Definition MAX_HISTORY_LENGTH : Z := 50.
Definition CONTEXT_WINDOW_SIZE : Z := 10.
Definition new_server : Server := mkServer (new_history MAX_HISTORY_LENGTH) ∅ ∅ [].

(** Handlers run in a state-and-exception monad; a raise keeps the state. *)
Definition M (A : Type) : Type := Server -> result A * Server.

Definition ret {A} (a : A) : M A := fun st => (Ok a, st).

Definition bind {A B} (m : M A) (k : A -> M B) : M B :=
  fun st => match m st with
            | (Ok a, st') => k a st'
            | (Raise e, st') => (Raise e, st')
            end.

Declare Scope handler_scope.
Delimit Scope handler_scope with handler.
Notation "x <- m ;; k" := (bind m (fun x => k))
  (at level 100, m at next level, right associativity) : handler_scope.
Notation "m ;;; k" := (bind m (fun _ => k))
  (at level 100, right associativity) : handler_scope.

Definition lift {A} (r : result A) : M A := fun st => (r, st).

Definition read {A} (f : Server -> A) : M A := fun st => (Ok (f st), st).

Definition log (c : Call) (st : Server) : Server :=
  mkServer (conversation_history st) (user_locations st) (emergency_cache st)
           (calls st ++ [c]).

(** A call on a component: recorded, then its result or its exception. *)
Definition call {A} (c : Call) (r : result A) : M A := fun st => (r, log c st).

Definition update_history (f : ConversationHistory -> ConversationHistory) : M unit :=
  fun st => (Ok tt, mkServer (f (conversation_history st)) (user_locations st)
                             (emergency_cache st) (calls st)).

Definition set_location (session_id location : string) : M unit :=
  fun st => (Ok tt, mkServer (conversation_history st)
                             (<[session_id := location]> (user_locations st))
                             (emergency_cache st) (calls st)).

Definition call_emergency_info (C : Components) (location : option string)
    : M (list (string * pyval)) :=
  fun st =>
    let '(r, cache) := emergency_info C location (emergency_cache st) in
    (r, log (CallEmergencyInfo location)
            (mkServer (conversation_history st) (user_locations st) cache (calls st))).

Definition call_detect_loop (session_id new_response : string) : M bool :=
  fun st =>
    let '(is_loop, ch) := detect_loop session_id new_response (conversation_history st) in
    (Ok is_loop, log (CallDetectLoop session_id new_response)
                     (mkServer ch (user_locations st) (emergency_cache st) (calls st))).

(** The parsed body of a POST /chat request, and the two clock readings the
    handler takes.  [session_id] is a JSON string when present (its documented
    type); [message] is whatever JSON value the client sent, [PyNone] when
    the key is absent. *)
Record Request : Type := mkRequest {
  req_message : pyval;
  req_session_id : option string;
  now_user : string;
  now_reply : string
}.

Record Response : Type := mkResponse {
  status : Z;
  body : list (string * pyval)
}.

(** [(data.get('message') or '').strip()] *)
Definition request_message (req : Request) : result string :=
  if truthy (req_message req)
  then match req_message req with
       | PyStr s => Ok (Text.strip s)
       | _ => Raise AttributeError
       end
  else Ok (Text.strip "").

Definition emergency_reply : string :=
  "I'm really worried about you right now. Can you reach out to someone who can help? Call emergency services or a crisis hotline.".

Definition loop_breaking_reply : string :=
  "Let's try something different. What's one thing you could do right now, just for the next five minutes?".

Definition blocked_response : Response :=
  mkResponse 200 [("reply", PyStr emergency_reply); ("is_emergency", PyBool true);
                  ("emergency_type", PyStr "critical");
                  ("pre_check_intervention", PyBool true)].

Definition error_response : Response :=
  mkResponse 500 [("error", PyStr "Internal server error");
                  ("message", PyStr "Something went wrong. Please try again.")].

Definition no_message_response : Response :=
  mkResponse 400 [("error", PyStr "No message provided")].

(** Step 2, the [if is_emergency:] block: location, then the numbers. *)
Definition resolve_emergency_number (C : Components) (session_id : string) : M string :=
  (known <- read (fun st => user_locations st !! session_id) ;;
   user_location <-
     (if nonempty_opt known then ret known
      else
        detected <- read (fun st =>
          detect_user_location (get_history session_id (conversation_history st))) ;;
        (if nonempty_opt detected
         then set_location session_id (default EmptyString detected)
         else ret tt) ;;;
        ret detected) ;;
   emergency_info <- call_emergency_info C user_location ;;
   call (CallFormatNumbers emergency_info) (emergency_format C emergency_info))%handler.

(** The placeholder replacement between steps 3 and 4. *)
Definition substitute_number (emergency_number : option string) (draft_reply : string)
    : string :=
  match emergency_number with
  | Some number =>
      if Text.nonempty number && Text.contains emergency_token draft_reply
      then Text.replace emergency_token number draft_reply
      else draft_reply
  | None => draft_reply
  end.

(** The body of the [try] in [chat]. *)
Definition chat_body (C : Components) (req : Request) : M Response :=
  (user_message <- lift (request_message req) ;;
   let session_id := or_default (req_session_id req) "default" in
   if negb (Text.nonempty user_message) then ret no_message_response
   else
     update_history (add_message session_id "user" user_message (now_user req)) ;;;
     recent_context <- read (fun st =>
       get_recent_context session_id CONTEXT_WINDOW_SIZE (conversation_history st)) ;;
     (* step 1 *)
     pre_check_data <- call (CallAnalyze user_message recent_context)
                            (pre_check_analyze C user_message recent_context) ;;
     if truthy (block_response pre_check_data) then
       update_history
         (add_message session_id "assistant" emergency_reply (now_reply req)) ;;;
       ret blocked_response
     else
       (* step 2 *)
       detected <- call (CallDetect user_message) (emergency_detect C user_message) ;;
       let '(is_emergency, emergency_type, confidence) := detected in
       emergency_number <-
         (if is_emergency : bool
          then number <- resolve_emergency_number C session_id ;; ret (Some number)
          else ret None) ;;
       (* step 3 *)
       history <- read (fun st => get_history session_id (conversation_history st)) ;;
       draft_reply <- call (CallGenerate user_message history)
                           (soulene_generate C user_message history) ;;
       let draft_reply := substitute_number emergency_number draft_reply in
       (* step 4 *)
       refined_reply <-
         call (CallRefine recent_context user_message draft_reply is_emergency pre_check_data)
              (counter_refine C recent_context user_message draft_reply is_emergency
                              pre_check_data) ;;
       (* step 5 *)
       is_loop <- call_detect_loop session_id refined_reply ;;
       let refined_reply := if is_loop : bool then loop_breaking_reply else refined_reply in
       (* step 6 *)
       let final_reply := refined_reply in
       update_history
         (add_message session_id "assistant" final_reply (now_reply req)) ;;;
       ret (mkResponse 200 [("reply", PyStr final_reply);
                            ("is_emergency", PyBool is_emergency);
                            ("emergency_type", emergency_type);
                            ("pre_check_data", pre_check_dict pre_check_data);
                            ("loop_detected", PyBool is_loop)]))%handler.

(** POST /chat: the [try] body, and the [except Exception] that answers 500. *)
Definition chat (C : Components) (req : Request) (st : Server) : Response * Server :=
  match chat_body C req st with
  | (Ok response, st') => (response, st')
  | (Raise _, st') => (error_response, st')
  end.

(** POST /chat/clear *)
Definition clear_session_route (session_id : option string) (st : Server)
    : Response * Server :=
  let sid := default "default" session_id in
  (mkResponse 200 [("status", PyStr "cleared"); ("session_id", PyStr sid)],
   mkServer (clear_session sid (conversation_history st))
            (delete sid (user_locations st)) (emergency_cache st) (calls st)).

(** The calls a request adds to the record. *)
Definition calls_of (C : Components) (req : Request) (st : Server) : list Call :=
  drop (length (calls st)) (calls (snd (chat C req st))).

Definition reply_of (r : Response) : pyval := dict_get (body r) "reply" PyNone.

(** ** Notions used in the statements *)

(** The newest [n] elements of a list, oldest first. *)
Definition newest {A} (n : nat) (l : list A) : list A := drop (length l - n) l.

Definition add_turn (session_id : string) (ch : ConversationHistory) (t : Turn)
    : ConversationHistory :=
  add_message session_id (role t) (content t) (timestamp t) ch.

(** Successive [add_message] calls on one session. *)
Definition add_messages (session_id : string) (turns : list Turn)
    (ch : ConversationHistory) : ConversationHistory :=
  fold_left (add_turn session_id) turns ch.

(** The loop window of a session ([[]] when the session is not tracked). *)
Definition window (session_id : string) (ch : ConversationHistory) : list string :=
  default [] (loop_tracker ch !! session_id).

(** The mutating methods of [ConversationHistory]. *)
Inductive Op : Type :=
| OpAdd (session_id role content now : string)
| OpDetectLoop (session_id new_response : string)
| OpClear (session_id : string).

Definition apply_op (ch : ConversationHistory) (o : Op) : ConversationHistory :=
  match o with
  | OpAdd sid r c now => add_message sid r c now ch
  | OpDetectLoop sid resp => snd (detect_loop sid resp ch)
  | OpClear sid => clear_session sid ch
  end.

Definition run_ops (ops : list Op) (ch : ConversationHistory) : ConversationHistory :=
  fold_left apply_op ops ch.


Fixpoint last_char (s : string) : option ascii :=
  match s with
  | EmptyString => None
  | String c EmptyString => Some c
  | String _ s' => last_char s'
  end.

(** ** A table-driven [json.loads] for running the model on examples.  It
    agrees with Python on the texts it lists and rejects every other text. *)

Definition key (k : string) : string := dq +:+ k +:+ dq.

Definition text_blocking : string := "{" +:+ key "block_response" +:+ ": true}".
Definition text_calm : string := "{" +:+ key "block_response" +:+ ": false}".
Definition text_low_positive : string :=
  "{" +:+ key "is_emergency" +:+ ": true, " +:+ key "emergency_type" +:+ ": "
      +:+ key "suicide" +:+ ", " +:+ key "confidence" +:+ ": " +:+ key "low" +:+ "}".
Definition text_high_positive : string :=
  "{" +:+ key "is_emergency" +:+ ": true, " +:+ key "emergency_type" +:+ ": "
      +:+ key "suicide" +:+ ", " +:+ key "confidence" +:+ ": " +:+ key "high" +:+ "}".
Definition text_negative : string :=
  "{" +:+ key "is_emergency" +:+ ": false, " +:+ key "emergency_type" +:+ ": "
      +:+ key "none" +:+ ", " +:+ key "confidence" +:+ ": " +:+ key "low" +:+ "}".
Definition text_numbers : string :=
  "{" +:+ key "medical" +:+ ": " +:+ key "108" +:+ ", " +:+ key "police" +:+ ": "
      +:+ key "100" +:+ "}".
Definition text_numbers_echo : string :=
  "{" +:+ key "medical" +:+ ": " +:+ key "[EMERGENCY_NUMBER]" +:+ "}".

Definition table_json_loads (s : string) : result pyval :=
  if String.eqb s text_blocking then Ok (PyDict [("block_response", PyBool true)])
  else if String.eqb s text_calm then Ok (PyDict [("block_response", PyBool false)])
  else if String.eqb s text_low_positive then
    Ok (PyDict [("is_emergency", PyBool true); ("emergency_type", PyStr "suicide");
                ("confidence", PyStr "low")])
  else if String.eqb s text_high_positive then
    Ok (PyDict [("is_emergency", PyBool true); ("emergency_type", PyStr "suicide");
                ("confidence", PyStr "high")])
  else if String.eqb s text_negative then
    Ok (PyDict [("is_emergency", PyBool false); ("emergency_type", PyStr "none");
                ("confidence", PyStr "low")])
  else if String.eqb s text_numbers then
    Ok (PyDict [("medical", PyStr "108"); ("police", PyStr "100")])
  else if String.eqb s text_numbers_echo then
    Ok (PyDict [("medical", PyStr "[EMERGENCY_NUMBER]")])
  else if String.eqb s "[1]" then Ok (PyList [PyInt 1])
  else Raise JSONDecodeError.

Definition table_lib : PyLib :=
  {| json_loads := table_json_loads;
     py_str := fun _ => "<object>";
     json_dumps := fun _ => "{}" |}.

Definition reply_with (text : string) : string -> result string := fun _ => Ok text.
Definition unavailable : string -> result string := fun _ => Raise CapabilityError.

(** Capabilities for running the model on examples: a pre-screen that does
    not block, a detector that reports no emergency, a drafter and a refiner
    that answer with fixed text, and a number lookup. *)
Definition calm_caps : Capabilities :=
  mkCapabilities (reply_with text_calm) (reply_with text_negative)
                 (fun _ _ => Ok "I hear you.") (reply_with "I hear you. Tell me more.")
                 (reply_with text_numbers).

Definition hello : Request := mkRequest (PyStr "hello") None "t1" "t2".

(** What the refiner was handed: the emergency flag and the draft of each
    [CounterAI.refine] call. *)
Fixpoint refine_drafts (cs : list Call) : list (bool * string) :=
  match cs with
  | [] => []
  | CallRefine _ _ draft_reply is_emergency _ :: cs' =>
      (is_emergency, draft_reply) :: refine_drafts cs'
  | _ :: cs' => refine_drafts cs'
  end.


(** An emergency turn with a lookup that answers 108 and 100. *)
Definition emergency_caps : Capabilities :=
  mkCapabilities (reply_with text_calm) (reply_with text_high_positive)
                 (fun _ _ => Ok "Call [EMERGENCY_NUMBER] now.") unavailable
                 (reply_with text_numbers).

(** Drafter and refiner both down, no emergency reported. *)
Definition outage_caps : Capabilities :=
  mkCapabilities (reply_with text_calm) (reply_with text_negative)
                 (fun _ _ => Raise CapabilityError) unavailable unavailable.

Definition danger : Request :=
  mkRequest (PyStr "I am going to kill myself") None "t1" "t2".

(** A refiner that keeps answering with a grounding exercise, and a server
    whose default session already got two such replies. *)
Definition grounding_caps : Capabilities :=
  mkCapabilities (reply_with text_calm) (reply_with text_negative)
                 (fun _ _ => Ok "I hear you.")
                 (reply_with "Take a slow breath and feel your feet on the ground.")
                 (reply_with text_numbers).

Definition looping_server : Server :=
  mkServer
    (snd (detect_loop "default" "Focus on your breathing and stay present"
            (snd (detect_loop "default" "Try to breathe slowly and ground yourself"
                    (new_history MAX_HISTORY_LENGTH)))))
    ∅ ∅ [].

(** A pre-screen that blocks. *)
Definition blocking_caps : Capabilities :=
  mkCapabilities (reply_with text_blocking) (reply_with text_high_positive)
                 (fun _ _ => Ok "I hear you.") (reply_with "I hear you. Tell me more.")
                 (reply_with text_numbers).

(** No emergency reported, a drafter whose reply holds a grounding word and
    the placeholder, and a refiner that is down. *)
Definition grounding_draft_caps : Capabilities :=
  mkCapabilities (reply_with text_calm) (reply_with text_negative)
                 (fun _ _ => Ok "Breathe with me, then call [EMERGENCY_NUMBER].")
                 unavailable unavailable.

(** The ways the pre-screen's classifier step can fail: the call raises
    (a timeout is one such raise), the text cannot be cleaned or parsed, or
    it parses to something that is not a dict. *)
Inductive PreScreenFailure `{PyLib} (model : string -> result string)
    (user_message recent_context : string) : Prop :=
| call_raises e :
    model (pre_check_prompt user_message recent_context) = Raise e ->
    PreScreenFailure model user_message recent_context
| cleaning_raises text e :
    model (pre_check_prompt user_message recent_context) = Ok text ->
    clean_json_response text = Raise e ->
    PreScreenFailure model user_message recent_context
| parsing_raises text cleaned e :
    model (pre_check_prompt user_message recent_context) = Ok text ->
    clean_json_response text = Ok cleaned ->
    json_loads cleaned = Raise e ->
    PreScreenFailure model user_message recent_context
| not_a_dict text cleaned v :
    model (pre_check_prompt user_message recent_context) = Ok text ->
    clean_json_response text = Ok cleaned ->
    json_loads cleaned = Ok v ->
    (forall d, v <> PyDict d) ->
    PreScreenFailure model user_message recent_context.




(** Every reachable object keeps both bounds. *)
Definition bounded (ch : ConversationHistory) : Prop :=
  forall sid, (length (get_history sid ch) <= Z.to_nat (max_length ch))%nat
              /\ (length (window sid ch) <= 5)%nat.

(** ** Notions used in the further properties *)

(** The session a mutating call is about. *)
Definition op_session (o : Op) : string :=
  match o with
  | OpAdd sid _ _ _ => sid
  | OpDetectLoop sid _ => sid
  | OpClear sid => sid
  end.

(** [data.get('session_id') or 'default'] *)
Definition request_session (req : Request) : string :=
  or_default (req_session_id req) "default".

(** The two state-changing routes, POST /chat and POST /chat/clear, and a
    server handling a sequence of such requests one after the other. *)
Inductive Event : Type :=
| EvChat (C : Components) (req : Request)
| EvClear (session_id : option string).

Definition handle (st : Server) (ev : Event) : Server :=
  match ev with
  | EvChat C req => snd (chat C req st)
  | EvClear sid => snd (clear_session_route sid st)
  end.

Definition serve (events : list Event) (st : Server) : Server :=
  fold_left handle events st.

(** [msg['role'] == 'user'] *)
Definition is_user (t : Turn) : bool := String.eqb (role t) "user".

(** The stage a recorded call belongs to, and the two full pipelines. *)
Inductive Stage : Type :=
| StagePreScreen
| StageEmergency
| StageContactLookup
| StageContactFormat
| StageDraft
| StageRefine
| StageLoopGuard.

Definition stage_of (c : Call) : Stage :=
  match c with
  | CallAnalyze _ _ => StagePreScreen
  | CallDetect _ => StageEmergency
  | CallEmergencyInfo _ => StageContactLookup
  | CallFormatNumbers _ => StageContactFormat
  | CallGenerate _ _ => StageDraft
  | CallRefine _ _ _ _ _ => StageRefine
  | CallDetectLoop _ _ => StageLoopGuard
  end.

Definition calm_pipeline : list Stage :=
  [StagePreScreen; StageEmergency; StageDraft; StageRefine; StageLoopGuard].

Definition emergency_pipeline : list Stage :=
  [StagePreScreen; StageEmergency; StageContactLookup; StageContactFormat;
   StageDraft; StageRefine; StageLoopGuard].

(** A request whose message is a number. *)
Definition numeric : Request := mkRequest (PyInt 5) None "t1" "t2".

(** A request with no message key. *)
Definition empty_body : Request := mkRequest PyNone None "t1" "t2".

(** Every model and the search tool down. *)
Definition dead_caps : Capabilities :=
  mkCapabilities unavailable unavailable (fun _ _ => Raise CapabilityError)
                 unavailable unavailable.

(** A server that already knows where the default session is. *)
Definition located_server : Server :=
  mkServer (new_history MAX_HISTORY_LENGTH) {["default" := "Pune"]} ∅ [].



(** A server where another session has talked before. *)
Definition busy_server : Server :=
  mkServer (add_message "other" "user" "i live in Pune" "t0"
              (new_history MAX_HISTORY_LENGTH))
           {["other" := "Pune"]} ∅ [].


(** ** Proof automation for the handler *)

Ltac unfold_handler :=
  unfold chat, chat_body, resolve_emergency_number, bind, lift, ret, read, call,
    update_history, set_location, call_emergency_info, call_detect_loop, log;
  cbn [conversation_history user_locations emergency_cache calls fst snd].

Ltac handler_case :=
  match goal with
  | |- context [pre_check_analyze ?C ?a ?b] =>
      destruct (pre_check_analyze C a b) as [?p|?e] eqn:?Hanalyze
  | |- context [truthy (block_response ?p)] =>
      destruct (truthy (block_response p)) eqn:?Hblock
  | |- context [emergency_detect ?C ?a] =>
      destruct (emergency_detect C a) as [[[[|] ?ty] ?conf]|?e] eqn:?Hdetect
  | |- context [nonempty_opt ?o] => destruct (nonempty_opt o) eqn:?Hloc
  | |- context [emergency_info ?C ?l ?c] =>
      destruct (emergency_info C l c) as [[?info|?e] ?cache] eqn:?Hinfo
  | |- context [emergency_format ?C ?i] =>
      destruct (emergency_format C i) as [?number|?e] eqn:?Hformat
  | |- context [soulene_generate ?C ?a ?h] =>
      destruct (soulene_generate C a h) as [?draft|?e] eqn:?Hdraft
  | |- context [counter_refine ?C ?a ?b ?c ?d ?p] =>
      destruct (counter_refine C a b c d p) as [?refined|?e] eqn:?Hrefine
  | |- context [detect_loop ?s ?r ?ch] =>
      destruct (detect_loop s r ch) as [[|] ?ch'] eqn:?Hloop
  end.

(** One case per way through the handler, each component result named. *)
Ltac handler_cases :=
  repeat (cbn beta iota zeta delta [fst snd negb conversation_history user_locations
                                      emergency_cache calls] in *;
          try handler_case).

(** The calls of the request, read off the record of the final state. *)
Ltac calls_norm :=
  repeat rewrite <- app_assoc;
  first [rewrite drop_app_length | rewrite drop_all];
  cbn [app].

(** * Properties *)

(** ** Strings *)

(** The repository's unit tests of [clean_json_response], run on the model. *)
Example clean_json_response_with_markdown :
  clean_json_response
    (nl +:+ "        Here's the result:" +:+ nl +:+ "        ```json" +:+ nl
        +:+ "        {" +:+ dq +:+ "status" +:+ dq +:+ ": " +:+ dq +:+ "ok" +:+ dq +:+ "}"
        +:+ nl +:+ "        ```" +:+ nl +:+ "        ")
  = Ok ("{" +:+ dq +:+ "status" +:+ dq +:+ ": " +:+ dq +:+ "ok" +:+ dq +:+ "}").
Proof. vm_compute. reflexivity. Qed.

Example clean_json_response_with_extra_text :
  clean_json_response
    ("Some text before {" +:+ dq +:+ "status" +:+ dq +:+ ": " +:+ dq +:+ "ok" +:+ dq
       +:+ "} some text after")
  = Ok ("{" +:+ dq +:+ "status" +:+ dq +:+ ": " +:+ dq +:+ "ok" +:+ dq +:+ "}").
Proof. vm_compute. reflexivity. Qed.

Example lower_ex : Text.lower "Try To BREATHE" = "try to breathe".
Proof. reflexivity. Qed.

Example replace_ex : Text.replace "ab" "X" "cababab-ab" = "cXXX-X".
Proof. reflexivity. Qed.

Example split_ex : Text.split "--" "a--b----c" = ["a"; "b"; ""; "c"].
Proof. reflexivity. Qed.

Example words_ex : Text.words "  i live  in Pune. " = ["i"; "live"; "in"; "Pune."].
Proof. reflexivity. Qed.

Example detect_user_location_ex :
  detect_user_location [mkTurn "user" "I live in Pune, it is hot." "t"] = Some "Pune".
Proof. vm_compute. reflexivity. Qed.

Example rule_based_response_ex :
  rule_based_response "  so tired of it all  " =
  "so tired of it all... That sounds brutal. You're reaching outâ€”that matters.".
Proof. vm_compute. reflexivity. Qed.

Lemma append_nil_l (s : string) : EmptyString +:+ s = s.
Proof. reflexivity. Qed.

Lemma append_cons (c : ascii) (s t : string) : String c s +:+ t = String c (s +:+ t).
Proof. reflexivity. Qed.

Lemma append_nil_r (s : string) : s +:+ EmptyString = s.
Proof. induction s as [|c s IH]; [done|]. by rewrite append_cons, IH. Qed.

Lemma append_assoc (a b c : string) : (a +:+ b) +:+ c = a +:+ (b +:+ c).
Proof. induction a as [|x a IH]; [done|]. by rewrite !append_cons, IH. Qed.


Lemma startswith_app (p r : string) : Text.startswith p (p +:+ r) = true.
Proof.
  induction p as [|x p IH]; [done|]. rewrite append_cons. cbn.
  by rewrite Ascii.eqb_refl.
Qed.







Lemma last_char_app (a b : string) :
  b <> EmptyString -> last_char (a +:+ b) = last_char b.
Proof.
  intros Hb. induction a as [|x a IH]; [done|]. rewrite append_cons.
  cbn [last_char]. destruct (a +:+ b) as [|y r] eqn:E; [|done].
  destruct a; [by destruct Hb|done].
Qed.


Lemma contains_nil (t : string) : t <> EmptyString -> Text.contains t EmptyString = false.
Proof. by destruct t. Qed.



(** *** [str.replace] *)






Section Replace.
Variables (old new : string).
Hypothesis old_nonempty : old <> EmptyString.






Section Clean.
Variables (t c : ascii).
Hypothesis old_last : last_char old = Some t.
Hypothesis new_lacks_t : Text.mem_char t new = false.
Hypothesis new_last : last_char new = Some c.
Hypothesis old_lacks_c : Text.mem_char c old = false.



End Clean.
End Replace.

Lemma contains_char (c : ascii) (s : string) :
  Text.contains (String c EmptyString) s = Text.mem_char c s.
Proof.
  induction s as [|x s IH]; [done|]. cbn [Text.contains Text.mem_char].
  rewrite IH. cbn. by destruct (Ascii.eqb c x).
Qed.

(** ** Slices and windows *)

Section Windows.
Context {A : Type}.
Implicit Types (l k : list A) (n m : nat).

Lemma slice_from_newest (z : Z) l :
  0 < z -> slice_from (- z) l = newest (Z.to_nat z) l.
Proof.
  intros Hz. unfold slice_from, newest, Text.clamp.
  destruct (Z.ltb_spec (- z) 0) as [_|Hge]; [|lia].
  f_equal. lia.
Qed.

Lemma slice_from_zero l : slice_from (- 0) l = l.
Proof. unfold slice_from, Text.clamp. simpl. by rewrite Z.min_l by lia. Qed.

Lemma newest_length n l : length (newest n l) = Nat.min (length l) n.
Proof. unfold newest. rewrite length_drop. lia. Qed.

Lemma newest_all n l : (length l <= n)%nat -> newest n l = l.
Proof.
  intros Hle. unfold newest. by replace (length l - n)%nat with 0%nat by lia.
Qed.

Lemma newest_app_r n l k : newest (n + length k) (l ++ k) = newest n l ++ k.
Proof.
  unfold newest. rewrite length_app.
  replace (length l + length k - (n + length k))%nat with (length l - n)%nat by lia.
  apply drop_app_le. lia.
Qed.

Lemma newest_snoc n l x : newest (S n) (l ++ [x]) = newest n l ++ [x].
Proof. rewrite <- (newest_app_r n l [x]). f_equal. cbn. lia. Qed.

Lemma newest_app n l k : newest n (newest n l ++ k) = newest n (l ++ k).
Proof.
  destruct (decide (length l <= n)%nat) as [Hle|Hgt].
  - by rewrite (newest_all n l).
  - unfold newest. rewrite !length_app, length_drop.
    replace (length l - (length l - n) + length k - n)%nat with (length k) by lia.
    replace (length l + length k - n)%nat with ((length l - n) + length k)%nat by lia.
    rewrite <- drop_drop. f_equal. symmetry. apply drop_app_le. lia.
Qed.

End Windows.

(** ** ConversationHistory *)

Lemma add_message_max_length sid r c now ch :
  max_length (add_message sid r c now ch) = max_length ch.
Proof. reflexivity. Qed.

Lemma add_message_history sid r c now ch :
  0 < max_length ch ->
  get_history sid (add_message sid r c now ch)
  = newest (Z.to_nat (max_length ch)) (get_history sid ch ++ [mkTurn r c now]).
Proof.
  intros Hm. unfold get_history, add_message. cbn [histories].
  rewrite lookup_insert_eq. cbn [default from_option id].
  set (h := _ ++ [_]). rewrite Z.gtb_ltb.
  destruct (Z.ltb_spec (max_length ch) (Z.of_nat (length h))).
  - by apply slice_from_newest.
  - symmetry. apply newest_all. lia.
Qed.

Lemma add_message_other sid sid' r c now ch :
  sid <> sid' -> get_history sid' (add_message sid r c now ch) = get_history sid' ch.
Proof.
  intros Hne. unfold get_history, add_message. cbn [histories].
  by rewrite lookup_insert_ne.
Qed.

Lemma add_messages_history sid turns ch :
  0 < max_length ch ->
  (length (get_history sid ch) <= Z.to_nat (max_length ch))%nat ->
  get_history sid (add_messages sid turns ch)
  = newest (Z.to_nat (max_length ch)) (get_history sid ch ++ turns).
Proof.
  revert ch. induction turns as [|t turns IH]; intros ch Hm Hlen.
  - cbn. rewrite app_nil_r. symmetry. by apply newest_all.
  - unfold add_messages in *. cbn [fold_left].
    assert (Hstep : get_history sid (add_turn sid ch t)
                    = newest (Z.to_nat (max_length ch)) (get_history sid ch ++ [t])).
    { unfold add_turn. rewrite add_message_history by done. by destruct t. }
    rewrite IH.
    + unfold add_turn at 1. rewrite add_message_max_length, Hstep.
      by rewrite newest_app, <- app_assoc.
    + done.
    + unfold add_turn at 2. rewrite add_message_max_length, Hstep, newest_length. lia.
Qed.

Lemma grounding_count_app l k :
  grounding_count (l ++ k) = (grounding_count l + grounding_count k)%nat.
Proof. induction l as [|x l IH]; cbn; [done|]. rewrite IH. lia. Qed.

(** [detect_loop] in one equation: the verdict is read off the newest three
    entries; a positive verdict returns the object as it was. *)
Lemma detect_loop_eq sid cand ch :
  detect_loop sid cand ch
  = if has_grounding cand && (2 <=? grounding_count (newest 3 (window sid ch)))%nat
    then (true, ch)
    else (false, mkCH (max_length ch) (histories ch)
                      (<[sid := newest 5 (window sid ch ++ [cand])]> (loop_tracker ch))).
Proof.
  assert (Hcap : forall w : list string,
             (if (5 <? length w)%nat then slice_from (-5) w else w) = newest 5 w).
  { intros w. destruct (Nat.ltb_spec 5 (length w)).
    - by apply (slice_from_newest 5).
    - symmetry. by apply newest_all. }
  unfold detect_loop, window. destruct (loop_tracker ch !! sid) as [w|] eqn:Hw.
  - rewrite Hw. cbn [default from_option id].
    rewrite (slice_from_newest 3) by lia. change (Z.to_nat 3) with 3%nat.
    destruct (has_grounding cand && _).
    + by destruct ch.
    + by rewrite Hcap.
  - rewrite lookup_insert_eq. cbn [default from_option id].
    change (grounding_count (slice_from (-3) [])) with 0%nat.
    change (grounding_count (newest 3 [])) with 0%nat.
    cbn [Nat.leb]. rewrite andb_false_r. by rewrite Hcap, insert_insert_eq.
Qed.

Lemma detect_loop_histories sid cand ch :
  histories (snd (detect_loop sid cand ch)) = histories ch
  /\ max_length (snd (detect_loop sid cand ch)) = max_length ch.
Proof. rewrite detect_loop_eq. by destruct (_ && _). Qed.

Lemma detect_loop_window sid cand ch :
  fst (detect_loop sid cand ch) = false ->
  window sid (snd (detect_loop sid cand ch)) = newest 5 (window sid ch ++ [cand]).
Proof.
  rewrite detect_loop_eq. destruct (_ && _); [done|]. intros _.
  unfold window at 1. cbn [snd loop_tracker]. by rewrite lookup_insert_eq.
Qed.

Lemma detect_loop_window_other sid sid' cand ch :
  sid <> sid' -> window sid' (snd (detect_loop sid cand ch)) = window sid' ch.
Proof.
  intros Hne. rewrite detect_loop_eq. destruct (_ && _); [done|].
  unfold window. cbn [snd loop_tracker]. by rewrite lookup_insert_ne.
Qed.

Lemma bounded_new m : bounded (new_history m).
Proof.
  intros sid. unfold get_history, window, new_history. cbn [histories loop_tracker].
  rewrite !lookup_empty. cbn. lia.
Qed.

Lemma bounded_apply_op ch o :
  0 < max_length ch -> bounded ch ->
  bounded (apply_op ch o) /\ max_length (apply_op ch o) = max_length ch.
Proof.
  intros Hm Hb. destruct o as [sid r c now|sid resp|sid]; cbn [apply_op].
  - split; [|done]. intros sid'. rewrite add_message_max_length.
    split; [|apply Hb].
    destruct (decide (sid = sid')) as [->|Hne].
    + rewrite add_message_history by done. rewrite newest_length. lia.
    + rewrite add_message_other by done. apply Hb.
  - destruct (detect_loop_histories sid resp ch) as [Hh Hmax].
    split; [|done]. intros sid'. rewrite Hmax. split.
    + unfold get_history. rewrite Hh. apply Hb.
    + destruct (decide (sid = sid')) as [->|Hne].
      * destruct (fst (detect_loop sid' resp ch)) eqn:Hv.
        -- rewrite detect_loop_eq in *. destruct (_ && _); [apply Hb|done].
        -- rewrite detect_loop_window by done. rewrite newest_length. lia.
      * rewrite detect_loop_window_other by done. apply Hb.
  - split; [|done]. intros sid'. unfold get_history, window, clear_session.
    cbn [histories loop_tracker max_length].
    destruct (decide (sid = sid')) as [->|Hne].
    + rewrite !lookup_delete_eq. cbn. lia.
    + rewrite !lookup_delete_ne by done. apply Hb.
Qed.

Lemma bounded_run_ops ops ch :
  0 < max_length ch -> bounded ch ->
  bounded (run_ops ops ch) /\ max_length (run_ops ops ch) = max_length ch.
Proof.
  revert ch. induction ops as [|o ops IH]; intros ch Hm Hb; [done|].
  unfold run_ops in *. cbn [fold_left].
  destruct (bounded_apply_op ch o Hm Hb) as [Hb' Hm'].
  destruct (IH (apply_op ch o)) as [Hb'' Hm'']; [lia|done|].
  split; [done|congruence].
Qed.

(** C2.  With a positive [max_length] (the default 50, the server's
    [Config.MAX_HISTORY_LENGTH]): after N [add_message] calls on a fresh
    session its history has length min(N, max_length) and is exactly the
    newest min(N, max_length) appended turns in append order; and after any
    sequence of mutating calls ([add_message], [detect_loop],
    [clear_session]) on a new object every session's history has at most
    [max_length] turns. *)
Theorem history_keeps_newest_turns (m : Z) (Hm : 0 < m) :
  (forall ch sid turns,
      max_length ch = m -> histories ch !! sid = None ->
      let after := get_history sid (add_messages sid turns ch) in
      length after = Nat.min (length turns) (Z.to_nat m)
      /\ after = newest (Z.to_nat m) turns)
  /\ (forall ops sid,
         (length (get_history sid (run_ops ops (new_history m))) <= Z.to_nat m)%nat).
Proof.
  split.
  - intros ch sid turns Hmax Hfresh after. subst after m.
    assert (Hempty : get_history sid ch = []).
    { unfold get_history. by rewrite Hfresh. }
    rewrite add_messages_history; [|done|rewrite Hempty; cbn; lia].
    rewrite Hempty. cbn [app]. by rewrite newest_length.
  - intros ops sid.
    destruct (bounded_run_ops ops (new_history m)) as [Hb Hmax];
      [done|apply bounded_new|].
    specialize (Hb sid). rewrite Hmax in Hb. apply Hb.
Qed.

Lemma history_keeps_newest_turns_default :
  let t (i : string) := mkTurn "user" i "now" in
  get_history "s" (add_messages "s" [t "1"; t "2"; t "3"] (new_history 2))
  = [t "2"; t "3"].
Proof.
  intros t.
  exact (proj2 (proj1 (history_keeps_newest_turns 2 ltac:(lia))
                      (new_history 2) "s" [t "1"; t "2"; t "3"] eq_refl
                      (lookup_empty _))).
Defined.

(** ** The loop guard *)

Lemma loop_if_two sid r ch :
  has_grounding r = true ->
  (2 <= grounding_count (newest 3 (window sid ch)))%nat ->
  detect_loop sid r ch = (true, ch).
Proof.
  intros Hr Hc. rewrite detect_loop_eq, Hr.
  by destruct (Nat.leb_spec 2 (grounding_count (newest 3 (window sid ch)))); [|lia].
Qed.

Lemma detect_loop_step sid r ch :
  has_grounding r = true ->
  (detect_loop sid r ch = (true, ch)
   /\ (2 <= grounding_count (newest 3 (window sid ch)))%nat)
  \/ (fst (detect_loop sid r ch) = false
      /\ window sid (snd (detect_loop sid r ch)) = newest 4 (window sid ch) ++ [r]).
Proof.
  intros Hr.
  destruct (Nat.leb_spec 2 (grounding_count (newest 3 (window sid ch)))) as [Hc|Hc].
  - left. split; [by apply loop_if_two|done].
  - right. assert (Hv : fst (detect_loop sid r ch) = false).
    { rewrite detect_loop_eq, Hr.
      by destruct (Nat.leb_spec 2 (grounding_count (newest 3 (window sid ch)))); [lia|]. }
    split; [done|]. rewrite detect_loop_window by done.
    apply newest_snoc.
Qed.

(** C3.  [detect_loop] answers true exactly when the candidate holds a
    grounding keyword and at least two of the newest three window entries
    do; on true the object (so the window) is returned as it was; on false
    the candidate is appended and the window holds its newest five entries.
    Three grounding replies in a row make the third call answer true, from
    any window; on a fresh window two grounding replies both answer false
    and both stay in the window. *)
Theorem detect_loop_verdict_and_window (sid : string) (ch : ConversationHistory) :
  (forall cand,
      let verdict := has_grounding cand
                     && (2 <=? grounding_count (newest 3 (window sid ch)))%nat in
      fst (detect_loop sid cand ch) = verdict
      /\ (verdict = true -> snd (detect_loop sid cand ch) = ch)
      /\ (verdict = false ->
          window sid (snd (detect_loop sid cand ch)) = newest 5 (window sid ch ++ [cand])
          /\ (length (window sid (snd (detect_loop sid cand ch))) <= 5)%nat))
  /\ (forall r1 r2 r3,
         has_grounding r1 = true -> has_grounding r2 = true -> has_grounding r3 = true ->
         let ch1 := snd (detect_loop sid r1 ch) in
         let ch2 := snd (detect_loop sid r2 ch1) in
         fst (detect_loop sid r3 ch2) = true)
  /\ (forall r1 r2,
         has_grounding r1 = true -> has_grounding r2 = true -> window sid ch = [] ->
         let ch1 := snd (detect_loop sid r1 ch) in
         let ch2 := snd (detect_loop sid r2 ch1) in
         fst (detect_loop sid r1 ch) = false
         /\ fst (detect_loop sid r2 ch1) = false
         /\ window sid ch2 = [r1; r2]).
Proof.
  split; [|split].
  - intros cand verdict. subst verdict.
    pose proof (detect_loop_window sid cand ch) as Hw.
    rewrite detect_loop_eq in *.
    destruct (has_grounding cand && _); cbn [fst snd] in *.
    + split; [done|]. split; [done|]. intros; discriminate.
    + split; [done|]. split; [intros; discriminate|]. intros _.
      rewrite Hw by done. split; [done|]. rewrite newest_length. lia.
  - intros r1 r2 r3 H1 H2 H3 ch1 ch2. subst ch1 ch2.
    destruct (detect_loop_step sid r1 ch H1) as [[E1 C1]|[_ W1]].
    + rewrite E1. cbn [snd]. rewrite (loop_if_two sid r2 ch H2 C1). cbn [snd].
      by rewrite (loop_if_two sid r3 ch H3 C1).
    + destruct (detect_loop_step sid r2 (snd (detect_loop sid r1 ch)) H2)
        as [[E2 C2]|[_ W2]].
      * rewrite E2. cbn [snd]. by rewrite (loop_if_two sid r3 _ H3 C2).
      * rewrite loop_if_two; [done|done|].
        rewrite W2, W1, !newest_snoc, <- app_assoc, grounding_count_app.
        cbn [app grounding_count]. rewrite H1, H2. lia.
  - intros r1 r2 H1 H2 Hfresh ch1 ch2. subst ch1 ch2.
    assert (E1 : detect_loop sid r1 ch
                 = (false, mkCH (max_length ch) (histories ch)
                                (<[sid := [r1]]> (loop_tracker ch)))).
    { rewrite detect_loop_eq, Hfresh, H1. reflexivity. }
    rewrite E1. cbn [fst snd]. split; [done|].
    set (ch1 := mkCH _ _ _).
    assert (W1 : window sid ch1 = [r1]).
    { unfold window, ch1. cbn [loop_tracker]. by rewrite lookup_insert_eq. }
    assert (E2 : detect_loop sid r2 ch1
                 = (false, mkCH (max_length ch1) (histories ch1)
                                (<[sid := [r1; r2]]> (loop_tracker ch1)))).
    { rewrite detect_loop_eq, W1, H2. change (newest 3 [r1]) with [r1].
      cbn [grounding_count]. rewrite H1. reflexivity. }
    rewrite E2. cbn [fst snd]. split; [done|].
    unfold window. cbn [loop_tracker]. by rewrite lookup_insert_eq.
Qed.

Lemma detect_loop_verdict_and_window_test :
  let r1 := "Try to breathe slowly and ground yourself" in
  let r2 := "Focus on your breathing and stay present" in
  let r3 := "Let's do some grounding exercises with your breath" in
  let ch := new_history 50 in
  let ch1 := snd (detect_loop "test_session" r1 ch) in
  let ch2 := snd (detect_loop "test_session" r2 ch1) in
  fst (detect_loop "test_session" r3 ch2) = true.
Proof.
  intros r1 r2 r3 ch ch1 ch2.
  exact (proj1 (proj2 (detect_loop_verdict_and_window "test_session" ch))
               r1 r2 r3 eq_refl eq_refl eq_refl).
Defined.

(** ** The recent context *)

Lemma format_turns_from acc k :
  fold_left (fun context msg => context +:+ format_turn msg) k acc
  = acc +:+ format_turns k.
Proof.
  unfold format_turns. revert acc. induction k as [|t k IH]; intros acc; cbn [fold_left].
  - by rewrite append_nil_r.
  - rewrite IH, (IH (EmptyString +:+ format_turn t)), append_nil_l.
    by rewrite append_assoc.
Qed.

(** The lines come out oldest first, one per turn. *)
Lemma format_turns_app l k : format_turns (l ++ k) = format_turns l +:+ format_turns k.
Proof. unfold format_turns at 1. by rewrite fold_left_app, format_turns_from. Qed.

(** For a positive limit the context is the newest [limit] turns (all of
    them when fewer exist), oldest first. *)
Lemma get_recent_context_positive sid limit ch :
  0 < limit ->
  get_recent_context sid limit ch
  = format_turns (newest (Z.to_nat limit) (get_history sid ch)).
Proof.
  intros Hl. unfold get_recent_context, recent_turns. rewrite Z.gtb_ltb.
  destruct (Z.ltb_spec limit (Z.of_nat (length (get_history sid ch)))).
  - by rewrite slice_from_newest.
  - rewrite newest_all; [done|lia].
Qed.

(** For limit 0 the slice [history[-0:]] is the whole history. *)
Lemma get_recent_context_zero sid ch :
  get_recent_context sid 0 ch = format_turns (get_history sid ch).
Proof.
  unfold get_recent_context, recent_turns.
  destruct (Z.of_nat (length (get_history sid ch)) >? 0); [|done].
  by rewrite (slice_from_zero (get_history sid ch)).
Qed.

(** C8, at the failing input: with one turn stored and limit 0 the context
    is that turn's line, where the newest 0 turns would give the empty
    string. *)
Theorem get_recent_context_limit_zero :
  let ch := add_message "s" "user" "hello" "t0" (new_history 50) in
  get_recent_context "s" 0 ch = "User: hello" +:+ nl
  /\ format_turns (newest 0 (get_history "s" ch)) = EmptyString.
Proof. split; vm_compute; reflexivity. Qed.

(** ** The classifiers *)

Section Classifiers.
Context {lib : PyLib}.

Lemma analyze_never_raises model um ctx :
  exists p, PreCheckCounter_analyze model um ctx = Ok p.
Proof.
  unfold PreCheckCounter_analyze, try_except, rbind.
  destruct (model _) as [text|]; [|by eexists].
  destruct (clean_json_response text) as [cleaned|]; [|by eexists].
  destruct (json_loads cleaned) as [v|]; [|by eexists].
  destruct v; by eexists.
Qed.

(** C4.  [analyze] always returns a dict, never an exception; and whenever
    the classifier call raises or times out, or its text cannot be cleaned
    or parsed, or parses to a non-dict, the dict is the all-safe default. *)
Theorem analyze_fails_open (model : string -> result string) (um ctx : string) :
  (exists p, PreCheckCounter_analyze model um ctx = Ok p)
  /\ (PreScreenFailure model um ctx ->
      PreCheckCounter_analyze model um ctx = Ok safe_pre_check
      /\ risk_level safe_pre_check = PyStr "none"
      /\ risk_type safe_pre_check = PyStr "none"
      /\ requires_intervention safe_pre_check = PyBool false
      /\ intervention_type safe_pre_check = PyStr "none"
      /\ block_response safe_pre_check = PyBool false).
Proof.
  split; [apply analyze_never_raises|].
  intros Hfail. split; [|by repeat split].
  unfold PreCheckCounter_analyze, try_except, rbind.
  destruct Hfail as [e He|text e Ht He|text cleaned e Ht Hc He|text cleaned v Ht Hc Hv Hnd].
  - by rewrite He.
  - by rewrite Ht, He.
  - by rewrite Ht, Hc, He.
  - rewrite Ht, Hc, Hv. destruct v; try done. by destruct (Hnd d).
Qed.



End Classifiers.

Lemma analyze_fails_open_on_list :
  @PreCheckCounter_analyze table_lib (reply_with "[1]") "hi" "" = Ok safe_pre_check.
Proof.
  refine (proj1 (proj2 (@analyze_fails_open table_lib (reply_with "[1]") "hi" "") _)).
  apply (not_a_dict _ _ _ "[1]" "[1]" (PyList [PyInt 1])); [done|done|done|done].
Defined.




(** ** The chat handler *)

Lemma calls_of_app C req st new :
  calls (snd (chat C req st)) = calls st ++ new -> calls_of C req st = new.
Proof.
  intros H. unfold calls_of. rewrite H. by rewrite drop_app_length.
Qed.

(** C1.  When the pre-screen's assessment has a true [block_response], the
    handler answers 200 with the fixed crisis-referral reply,
    [is_emergency] true, [emergency_type] "critical" and
    [pre_check_intervention] true, and the only component call of the
    request is the pre-screen's: no emergency detection, drafting,
    refinement or loop detection takes place. *)
Theorem blocked_request_short_circuits (C : Components) (req : Request) (st : Server)
    (um : string) (p : PreCheck) :
  let sid := or_default (req_session_id req) "default" in
  let ch1 := add_message sid "user" um (now_user req) (conversation_history st) in
  let ctx := get_recent_context sid CONTEXT_WINDOW_SIZE ch1 in
  request_message req = Ok um ->
  Text.nonempty um = true ->
  pre_check_analyze C um ctx = Ok p ->
  truthy (block_response p) = true ->
  calls_of C req st = [CallAnalyze um ctx]
  /\ status (fst (chat C req st)) = 200
  /\ body (fst (chat C req st))
     = [("reply", PyStr emergency_reply); ("is_emergency", PyBool true);
        ("emergency_type", PyStr "critical"); ("pre_check_intervention", PyBool true)]
  /\ conversation_history (snd (chat C req st))
     = add_message sid "assistant" emergency_reply (now_reply req) ch1.
Proof.
  intros sid ch1 ctx Hum Hne Hp Hblock.
  assert (E : chat C req st
              = (blocked_response,
                 mkServer (add_message sid "assistant" emergency_reply (now_reply req) ch1)
                          (user_locations st) (emergency_cache st)
                          (calls st ++ [CallAnalyze um ctx]))).
  { unfold_handler. rewrite Hum, Hne. cbn [negb conversation_history].
    fold sid. fold ch1. fold ctx. rewrite Hp, Hblock. reflexivity. }
  split; [apply calls_of_app; by rewrite E|].
  rewrite E. by repeat split.
Qed.

Lemma blocked_request_short_circuits_run :
  calls_of (@production table_lib blocking_caps) hello new_server
  = [CallAnalyze "hello" (String.append "User: hello" nl)]
  /\ body (fst (chat (@production table_lib blocking_caps) hello new_server))
     = [("reply", PyStr emergency_reply); ("is_emergency", PyBool true);
        ("emergency_type", PyStr "critical"); ("pre_check_intervention", PyBool true)].
Proof.
  destruct (blocked_request_short_circuits (@production table_lib blocking_caps)
              hello new_server "hello"
              (mkPreCheck (PyStr "none") (PyStr "none") (PyBool false) (PyStr "none")
                          (PyStr "") (PyBool true))
              ltac:(vm_compute; reflexivity) ltac:(vm_compute; reflexivity)
              ltac:(vm_compute; reflexivity) ltac:(vm_compute; reflexivity))
    as (Hcalls & _ & Hbody & _).
  exact (conj Hcalls Hbody).
Defined.

(** *** The production components never raise *)

Section FailOpen.
Context {lib : PyLib}.

Lemma production_analyze_total caps um ctx e :
  pre_check_analyze (production caps) um ctx <> Raise e.
Proof.
  cbn [pre_check_analyze production].
  destruct (analyze_never_raises (pre_check_model caps) um ctx) as [p ->]. done.
Qed.

Lemma production_detect_total caps um e :
  emergency_detect (production caps) um <> Raise e.
Proof.
  cbn [emergency_detect production].
  unfold EmergencyDetector_detect, try_except, rbind.
  destruct (emergency_model caps um) as [text|]; [|done].
  destruct (clean_json_response text) as [cleaned|]; [|done].
  destruct (json_loads cleaned) as [v|]; [|done].
  destruct v; try done. by destruct (_ && _).
Qed.

Lemma production_generate_total caps um history e :
  soulene_generate (production caps) um history <> Raise e.
Proof.
  cbn [soulene_generate production].
  unfold SouleneAI_generate_response, try_except, rbind.
  by destruct (soulene_model caps _ _).
Qed.

Lemma production_refine_total caps ctx um draft em p e :
  counter_refine (production caps) ctx um draft em p <> Raise e.
Proof.
  cbn [counter_refine production].
  unfold CounterAI_refine, try_except, rbind.
  destruct (counter_llm caps _) as [content|]; [|done].
  destruct (Text.contains _ _); [|done].
  by destruct (index _ 1).
Qed.

Lemma production_info_total caps location cache e cache' :
  emergency_info (production caps) location cache <> (Raise e, cache').
Proof.
  cbn [emergency_info production]. unfold get_emergency_info.
  destruct (cache !! _); [done|].
  by destruct (rbind _ _).
Qed.

(** With the production components every stage fails open, and the only
    500 is the one for a message that is not a string, before anything is
    stored. *)
Lemma production_aborts_before_commit caps req st :
  status (fst (chat (production caps) req st)) = 500 ->
  (exists e, request_message req = Raise e) /\ snd (chat (production caps) req st) = st.
Proof.
  unfold_handler.
  destruct (request_message req) as [um|e] eqn:Hum.
  2:{ intros _. split; [by exists e|done]. }
  destruct (Text.nonempty um) eqn:Hne; cbn [negb]; [|cbn; discriminate].
  handler_cases; try (cbn; discriminate); exfalso;
    first [ by eapply production_analyze_total
          | by eapply production_detect_total
          | by eapply production_generate_total
          | by eapply production_refine_total
          | by eapply production_info_total
          | by cbn [emergency_format production] in * ].
Qed.

End FailOpen.




(** ** The loop guard inside the handler *)

Lemma detect_loop_true_inv sid r ch ch' :
  detect_loop sid r ch = (true, ch') ->
  ch' = ch /\ has_grounding r = true
  /\ (2 <= grounding_count (newest 3 (window sid ch)))%nat.
Proof.
  rewrite detect_loop_eq. destruct (has_grounding r); [|done]. cbn [andb].
  destruct (Nat.leb_spec 2 (grounding_count (newest 3 (window sid ch)))); [|done].
  by intros [= <-].
Qed.

(** C9.  On a turn answered with [loop_detected] true the session's loop
    window (the whole tracker) is as it was before the turn: neither the
    refined reply nor the pattern-breaking reply that replaced it is
    recorded, the window already held two grounding entries among its
    newest three, and so any grounding reply that follows is again
    answered true by [detect_loop], against the same entries. *)
Theorem loop_turn_leaves_window (C : Components) (req : Request) (st : Server) :
  dict_get (body (fst (chat C req st))) "loop_detected" PyNone = PyBool true ->
  let sid := or_default (req_session_id req) "default" in
  let ch := conversation_history st in
  let ch' := conversation_history (snd (chat C req st)) in
  loop_tracker ch' = loop_tracker ch
  /\ reply_of (fst (chat C req st)) = PyStr loop_breaking_reply
  /\ (2 <= grounding_count (newest 3 (window sid ch)))%nat
  /\ (forall r, has_grounding r = true -> detect_loop sid r ch' = (true, ch')).
Proof.
  intros H sid ch ch'. subst ch ch'. revert H. unfold_handler.
  destruct (request_message req) as [um|e] eqn:Hum; [|cbn; discriminate].
  destruct (Text.nonempty um) eqn:Hne; cbn [negb]; [|cbn; discriminate].
  fold sid.
  handler_cases; try (cbn; discriminate); intros _;
    destruct (detect_loop_true_inv _ _ _ _ Hloop) as (-> & _ & Hc);
    (split; [reflexivity|]); (split; [reflexivity|]); (split; [exact Hc|]);
    intros r Hr; by apply loop_if_two.
Qed.

Lemma loop_turn_leaves_window_run :
  loop_tracker (conversation_history
                  (snd (chat (@production table_lib grounding_caps) hello looping_server)))
  = loop_tracker (conversation_history looping_server)
  /\ reply_of (fst (chat (@production table_lib grounding_caps) hello looping_server))
     = PyStr loop_breaking_reply.
Proof.
  destruct (loop_turn_leaves_window (@production table_lib grounding_caps) hello
              looping_server ltac:(vm_compute; reflexivity)) as (Ht & Hr & _).
  exact (conj Ht Hr).
Defined.

(** ** The placeholder *)

Section Placeholder.
Context {lib : PyLib}.

Lemma last_char_app_some (a b : string) (c : ascii) :
  last_char b = Some c -> last_char (a +:+ b) = Some c.
Proof.
  intros H. rewrite last_char_app; [done|]. by destruct b.
Qed.

(** The contact string always ends in a closing parenthesis. *)
Lemma format_emergency_numbers_last info :
  last_char (format_emergency_numbers info) = Some ")"%char.
Proof.
  unfold format_emergency_numbers.
  destruct (truthy (dict_get info "medical" PyNone));
    destruct (truthy (dict_get info "police" PyNone));
    destruct (truthy (dict_get info "suicide_hotline" (PyStr "")) && _);
    cbn [app Text.join];
    repeat match goal with
           | |- last_char (_ +:+ _) = _ => apply last_char_app_some
           end; reflexivity.
Qed.

Lemma format_emergency_numbers_nonempty info :
  Text.nonempty (format_emergency_numbers info) = true.
Proof.
  pose proof (format_emergency_numbers_last info) as H.
  by destruct (format_emergency_numbers info).
Qed.

Lemma generate_falls_back caps um history :
  (forall h m, exists e, soulene_model caps h m = Raise e) ->
  soulene_generate (production caps) um history = Ok (rule_based_response um).
Proof.
  intros Hdown. cbn [soulene_generate production].
  unfold SouleneAI_generate_response, try_except, rbind.
  by destruct (Hdown (format_history_for_gemini history) um) as [e ->].
Qed.

Lemma refine_fails_open caps ctx um draft em p :
  (forall prompt, exists e, counter_llm caps prompt = Raise e) ->
  counter_refine (production caps) ctx um draft em p = Ok draft.
Proof.
  intros Hdown. cbn [counter_refine production].
  unfold CounterAI_refine, try_except, rbind.
  by destruct (Hdown (refine_prompt ctx um draft em p)) as [e ->].
Qed.

Lemma rule_based_urgent um :
  existsb (fun s => Text.contains s (Text.lower (Text.strip um))) danger_indicators = true ->
  rule_based_response um = urgent_line.
Proof. intros H. unfold rule_based_response. by rewrite H. Qed.

End Placeholder.

(** What reaches the refiner on a turn without emergency: the draft as the
    drafter returned it. *)
Lemma refine_call_calm C req st ctx um d pcd :
  In (CallRefine ctx um d false pcd) (calls_of C req st) ->
  exists history, soulene_generate C um history = Ok d.
Proof.
  unfold calls_of. unfold_handler.
  destruct (request_message req) as [um'|e] eqn:Hum; [|by calls_norm].
  destruct (Text.nonempty um') eqn:Hne; cbn [negb]; [|by calls_norm].
  handler_cases; calls_norm; cbn [In substitute_number];
    intros Hin; repeat destruct Hin as [Hin|Hin]; try done;
    injection Hin as <- <- <- <-; by eexists.
Qed.


(** What the handler does with the refiner's answer on a turn without
    emergency: it is the reply unless the loop guard replaces it. *)
Lemma refine_call_calm_reply C req st ctx um d pcd refined :
  In (CallRefine ctx um d false pcd) (calls_of C req st) ->
  counter_refine C ctx um d false pcd = Ok refined ->
  (dict_get (body (fst (chat C req st))) "loop_detected" PyNone = PyBool false
   /\ reply_of (fst (chat C req st)) = PyStr refined)
  \/ (dict_get (body (fst (chat C req st))) "loop_detected" PyNone = PyBool true
      /\ reply_of (fst (chat C req st)) = PyStr loop_breaking_reply).
Proof.
  intros Hin Href. revert Hin. unfold calls_of. unfold_handler.
  destruct (request_message req) as [um'|e] eqn:Hum; [|by calls_norm].
  destruct (Text.nonempty um') eqn:Hne; cbn [negb]; [|by calls_norm].
  handler_cases; calls_norm; cbn [In substitute_number];
    intros Hin; repeat destruct Hin as [Hin|Hin]; try done;
    injection Hin as E1 E2 E3 E4; subst ctx um d pcd;
    cbn [substitute_number] in *; rewrite Hrefine in Href;
    try discriminate Href; injection Href as <-;
    first [by left | by right].
Qed.

(** C10 as amended.  On a turn where emergency detection answers false no
    placeholder is replaced: the refiner is handed the draft exactly as the
    drafter returned it.  When the refiner then returns its input, that
    draft, token included, is the reply sent to the user, unless the loop
    guard fires and the fixed pattern-breaking reply is sent instead.  In
    particular, when the drafting model is down and the message matches the
    explicit-danger phrases, the fallback's urgent line, with the literal
    token in it, is the refiner's input; and when the refiner fails open
    too, that line is the reply sent to the user. *)
Theorem calm_turn_keeps_placeholder `{PyLib} :
  (forall C req st ctx um d pcd,
      In (CallRefine ctx um d false pcd) (calls_of C req st) ->
      (exists history, soulene_generate C um history = Ok d)
      /\ (counter_refine C ctx um d false pcd = Ok d ->
          (dict_get (body (fst (chat C req st))) "loop_detected" PyNone = PyBool false
           /\ reply_of (fst (chat C req st)) = PyStr d)
          \/ (dict_get (body (fst (chat C req st))) "loop_detected" PyNone = PyBool true
              /\ reply_of (fst (chat C req st)) = PyStr loop_breaking_reply)))
  /\ (forall caps req st um p ty conf,
         let sid := or_default (req_session_id req) "default" in
         let ch1 := add_message sid "user" um (now_user req) (conversation_history st) in
         let ctx := get_recent_context sid CONTEXT_WINDOW_SIZE ch1 in
         request_message req = Ok um ->
         Text.nonempty um = true ->
         existsb (fun s => Text.contains s (Text.lower (Text.strip um)))
                 danger_indicators = true ->
         pre_check_analyze (production caps) um ctx = Ok p ->
         truthy (block_response p) = false ->
         emergency_detect (production caps) um = Ok (false, ty, conf) ->
         (forall h m, exists e, soulene_model caps h m = Raise e) ->
         (forall prompt, exists e, counter_llm caps prompt = Raise e) ->
         refine_drafts (calls_of (production caps) req st) = [(false, urgent_line)]
         /\ status (fst (chat (production caps) req st)) = 200
         /\ reply_of (fst (chat (production caps) req st)) = PyStr urgent_line
         /\ Text.contains emergency_token urgent_line = true).
Proof.
  split.
  { intros C req st ctx um d pcd Hin. split; [by eapply refine_call_calm|].
    by apply refine_call_calm_reply. }
  intros caps req st um p ty conf sid ch1 ctx Hum Hne Hdanger Hp Hblock Hdet Hgen Href.
  assert (Hloop : detect_loop sid urgent_line ch1
                  = (false, mkCH (max_length ch1) (histories ch1)
                                 (<[sid := newest 5 (window sid ch1 ++ [urgent_line])]>
                                    (loop_tracker ch1)))).
  { rewrite detect_loop_eq.
    replace (has_grounding urgent_line) with false by (vm_compute; reflexivity).
    reflexivity. }
  assert (E : exists st', chat (production caps) req st
              = (mkResponse 200 [("reply", PyStr urgent_line);
                                 ("is_emergency", PyBool false);
                                 ("emergency_type", ty);
                                 ("pre_check_data", pre_check_dict p);
                                 ("loop_detected", PyBool false)], st')
              /\ calls st'
                 = calls st ++ [CallAnalyze um ctx; CallDetect um;
                                CallGenerate um (get_history sid ch1);
                                CallRefine ctx um urgent_line false p;
                                CallDetectLoop sid urgent_line]).
  { unfold_handler. rewrite Hum, Hne. cbn [negb conversation_history].
    fold sid. fold ch1. fold ctx. rewrite Hp, Hblock, Hdet.
    cbn [conversation_history]. rewrite generate_falls_back by done.
    rewrite (rule_based_urgent um Hdanger). cbn [substitute_number].
    rewrite refine_fails_open by done. cbn [conversation_history].
    rewrite Hloop. eexists. split; [reflexivity|].
    cbn [calls]. by rewrite <- !app_assoc. }
  destruct E as (st' & E & Hcalls).
  split.
  - rewrite (calls_of_app _ _ _ _ ltac:(rewrite E; exact Hcalls)). reflexivity.
  - rewrite E. split; [done|]. split; [done|]. vm_compute. reflexivity.
Qed.

Lemma calm_turn_keeps_placeholder_run :
  reply_of (fst (chat (@production table_lib outage_caps) danger new_server))
  = PyStr urgent_line.
Proof.
  refine (proj1 (proj2 (proj2
    (proj2 (@calm_turn_keeps_placeholder table_lib) outage_caps danger new_server
       "I am going to kill myself"
       (mkPreCheck (PyStr "none") (PyStr "none") (PyBool false) (PyStr "none")
                   (PyStr "") (PyBool false))
       (PyStr "none") (PyStr "low") _ _ _ _ _ _ _ _)))).
  all: try (vm_compute; reflexivity).
  - intros h m. by exists CapabilityError.
  - intros prompt. by exists CapabilityError.
Defined.

(** C10 as stated fails: the detector reports no emergency, the draft holds
    the token and a grounding word, the refiner fails open and returns the
    draft, and the reply sent is the pattern-breaking text, without the
    token, because the session's window already held two grounding
    replies. *)
Lemma calm_turn_loop_guard_drops_placeholder :
  refine_drafts (calls_of (@production table_lib grounding_draft_caps) hello looping_server)
  = [(false, "Breathe with me, then call [EMERGENCY_NUMBER].")]
  /\ counter_refine (@production table_lib grounding_draft_caps)
       (String.append "User: hello" nl) "hello"
       "Breathe with me, then call [EMERGENCY_NUMBER]." false
       (mkPreCheck (PyStr "none") (PyStr "none") (PyBool false) (PyStr "none")
                   (PyStr "") (PyBool false))
     = Ok "Breathe with me, then call [EMERGENCY_NUMBER]."
  /\ Text.contains emergency_token "Breathe with me, then call [EMERGENCY_NUMBER]." = true
  /\ reply_of (fst (chat (@production table_lib grounding_draft_caps) hello looping_server))
     = PyStr loop_breaking_reply
  /\ Text.contains emergency_token loop_breaking_reply = false.
Proof. repeat split; vm_compute; reflexivity. Qed.




(** * Further properties of the code *)

(** ** ConversationHistory, beyond the bounds *)

(** X1.  [clear_session] empties the session's history and loop window,
    leaves every other session as it was, clearing twice is clearing once,
    and clearing a session the object does not know changes nothing. *)
Theorem clear_session_forgets (sid : string) (ch : ConversationHistory) :
  get_history sid (clear_session sid ch) = []
  /\ window sid (clear_session sid ch) = []
  /\ clear_session sid (clear_session sid ch) = clear_session sid ch
  /\ (histories ch !! sid = None -> loop_tracker ch !! sid = None ->
      clear_session sid ch = ch)
  /\ (forall sid', sid <> sid' ->
        get_history sid' (clear_session sid ch) = get_history sid' ch
        /\ window sid' (clear_session sid ch) = window sid' ch).
Proof.
  unfold get_history, window, clear_session. cbn [histories loop_tracker max_length].
  rewrite !lookup_delete_eq, !delete_delete_eq. repeat split; try done.
  - intros Hh Hl. rewrite !delete_id by done. by destruct ch.
  - by rewrite lookup_delete_ne.
  - by rewrite lookup_delete_ne.
Qed.

(** X2.  With [max_length <= 0] [add_message] does not cap the history: the
    slice [h[-max_length:]] then starts at index [-max_length], so the
    history is the old one with the new turn appended, less its
    [-max_length] oldest turns; with [max_length = 0] nothing is ever
    dropped. *)
Theorem add_message_without_cap (sid r c now : string) (ch : ConversationHistory) :
  max_length ch <= 0 ->
  get_history sid (add_message sid r c now ch)
  = drop (Z.to_nat (- max_length ch)) (get_history sid ch ++ [mkTurn r c now]).
Proof.
  intros Hm. unfold get_history, add_message. cbn [histories].
  rewrite lookup_insert_eq. cbn [default from_option id].
  set (h := _ ++ [_]).
  assert (Hlen : (0 < length h)%nat) by (unfold h; rewrite length_app; cbn; lia).
  rewrite Z.gtb_ltb. destruct (Z.ltb_spec (max_length ch) (Z.of_nat (length h))); [|lia].
  unfold slice_from, Text.clamp.
  destruct (Z.ltb_spec (- max_length ch) 0); [lia|].
  destruct (decide (- max_length ch <= Z.of_nat (length h))).
  - by rewrite Z.min_l by lia.
  - rewrite Z.min_r by lia. rewrite Nat2Z.id.
    rewrite !drop_ge; [done|lia|lia].
Qed.

Lemma add_message_without_cap_zero :
  get_history "s" (add_message "s" "user" "b" "t2"
                     (add_message "s" "user" "a" "t1" (new_history 0)))
  = [mkTurn "user" "a" "t1"; mkTurn "user" "b" "t2"].
Proof.
  rewrite (add_message_without_cap "s" "user" "b" "t2"
             (add_message "s" "user" "a" "t1" (new_history 0)) ltac:(cbn; lia)).
  vm_compute. reflexivity.
Defined.

(** X3.  [get_recent_context] for every limit: a positive limit gives the
    lines of the newest [limit] turns, a limit [<= 0] gives the lines of all
    turns but the [-limit] oldest (all of them for 0). *)
Theorem get_recent_context_any_limit (sid : string) (limit : Z)
    (ch : ConversationHistory) :
  get_recent_context sid limit ch
  = format_turns (if 0 <? limit
                  then newest (Z.to_nat limit) (get_history sid ch)
                  else drop (Z.to_nat (- limit)) (get_history sid ch)).
Proof.
  destruct (Z.ltb_spec 0 limit) as [Hpos|Hneg].
  - by apply get_recent_context_positive.
  - unfold get_recent_context, recent_turns. set (h := get_history sid ch).
    rewrite Z.gtb_ltb. destruct (Z.ltb_spec limit (Z.of_nat (length h))) as [Hlt|Hge].
    + f_equal. unfold slice_from, Text.clamp.
      destruct (Z.ltb_spec (- limit) 0); [lia|].
      destruct (decide (- limit <= Z.of_nat (length h))).
      * by rewrite Z.min_l by lia.
      * rewrite Z.min_r by lia. rewrite Nat2Z.id. rewrite !drop_ge; [done|lia|lia].
    + assert (length h = 0%nat) as Hnil by lia.
      destruct h; [|done]. by rewrite drop_nil.
Qed.

(** X4.  Calls about other sessions never change a session: after any
    sequence of [add_message], [detect_loop] and [clear_session] calls none
    of which names [sid], the history and the loop window of [sid] are as
    before. *)
Theorem other_sessions_untouched (sid : string) (ops : list Op)
    (ch : ConversationHistory) :
  Forall (fun o => op_session o <> sid) ops ->
  get_history sid (run_ops ops ch) = get_history sid ch
  /\ window sid (run_ops ops ch) = window sid ch.
Proof.
  revert ch. induction ops as [|o ops IH]; intros ch Hops; [done|].
  inversion Hops as [|? ? Ho Hrest]; subst.
  unfold run_ops in *. cbn [fold_left].
  destruct (IH (apply_op ch o) Hrest) as [-> ->].
  destruct o as [s r c now|s resp|s]; cbn [apply_op op_session] in *.
  - split; [by apply add_message_other|done].
  - split; [|by apply detect_loop_window_other].
    unfold get_history. by rewrite (proj1 (detect_loop_histories s resp ch)).
  - unfold get_history, window, clear_session. cbn [histories loop_tracker].
    by rewrite !lookup_delete_ne.
Qed.

Lemma other_sessions_untouched_run :
  get_history "a" (run_ops [OpAdd "b" "user" "hi" "t"; OpClear "b"]
                           (add_message "a" "user" "x" "t0" (new_history 50)))
  = get_history "a" (add_message "a" "user" "x" "t0" (new_history 50)).
Proof.
  refine (proj1 (other_sessions_untouched "a"
                   [OpAdd "b" "user" "hi" "t"; OpClear "b"] _ _)).
  repeat constructor; done.
Defined.

(** ** The emergency number service *)

Section NumberService.
Context {lib : PyLib}.

(** X5.  [get_emergency_info] never raises and memoizes per cache key: the
    dict it returns is in the cache afterwards under [location or
    'default'], a later call for a location with that key returns the same
    dict and the same cache whatever the model would now answer, and no
    entry that was in the cache is dropped or replaced. *)
Theorem emergency_info_is_memoized (model : string -> result string)
    (location : option string) (cache : gmap string (list (string * pyval))) :
  exists info,
    fst (get_emergency_info model location cache) = Ok info
    /\ snd (get_emergency_info model location cache) !! or_default location "default"
       = Some info
    /\ (forall model' location',
           or_default location' "default" = or_default location "default" ->
           get_emergency_info model' location'
                              (snd (get_emergency_info model location cache))
           = (Ok info, snd (get_emergency_info model location cache)))
    /\ (forall k v, cache !! k = Some v ->
           snd (get_emergency_info model location cache) !! k = Some v).
Proof.
  unfold get_emergency_info.
  destruct (cache !! or_default location "default") as [info|] eqn:Hc.
  - exists info. cbn [fst snd]. repeat split; try done.
    intros model' location' ->. by rewrite Hc.
  - destruct (rbind _ _) as [d|e]; cbn [fst snd].
    + exists d. rewrite lookup_insert_eq. repeat split; try done.
      * intros model' location' ->. by rewrite lookup_insert_eq.
      * intros k v Hk. rewrite lookup_insert_ne; [done|congruence].
    + exists (default_info location). rewrite lookup_insert_eq. repeat split; try done.
      * intros model' location' ->. by rewrite lookup_insert_eq.
      * intros k v Hk. rewrite lookup_insert_ne; [done|congruence].
Qed.

(** X6.  A failed lookup is answered with the static fallback record and
    that record is cached, so the lookup is not tried again for that key:
    later calls return the fallback even with a model that answers. *)
Theorem emergency_info_failure_is_cached (model : string -> result string)
    (location : option string) (cache : gmap string (list (string * pyval))) (e : exn) :
  cache !! or_default location "default" = None ->
  model (search_prompt location) = Raise e ->
  get_emergency_info model location cache
  = (Ok (default_info location),
     <[or_default location "default" := default_info location]> cache)
  /\ forall model',
       get_emergency_info model' location
                          (<[or_default location "default" := default_info location]> cache)
       = (Ok (default_info location),
          <[or_default location "default" := default_info location]> cache).
Proof.
  intros Hc He. unfold get_emergency_info. rewrite Hc, He. cbn [rbind].
  split; [done|]. intros model'. by rewrite lookup_insert_eq.
Qed.

(** X7.  [format_emergency_numbers] never returns the empty string and its
    result always ends in a closing parenthesis; with no usable medical,
    police or hotline field (absent, falsy, or a hotline given as 'not
    available') it is the international fallback; with all three given as
    strings they come in the order medical, police, hotline, joined by
    " or ". *)
Theorem format_emergency_numbers_shape (info : list (string * pyval)) :
  Text.nonempty (format_emergency_numbers info) = true
  /\ last_char (format_emergency_numbers info) = Some ")"%char
  /\ (truthy (dict_get info "medical" PyNone) = false ->
      truthy (dict_get info "police" PyNone) = false ->
      truthy (dict_get info "suicide_hotline" (PyStr "")) = false
      \/ dict_get info "suicide_hotline" (PyStr "") = PyStr "not available" ->
      format_emergency_numbers info = "112 (international emergency)")
  /\ (forall m p h,
         dict_get info "medical" PyNone = PyStr m -> Text.nonempty m = true ->
         dict_get info "police" PyNone = PyStr p -> Text.nonempty p = true ->
         dict_get info "suicide_hotline" (PyStr "") = PyStr h -> Text.nonempty h = true ->
         h <> "not available" ->
         format_emergency_numbers info
         = (m +:+ " (ambulance)") +:+ " or " +:+ (p +:+ " (police)") +:+ " or "
             +:+ (h +:+ " (crisis line)")).
Proof.
  split; [apply format_emergency_numbers_nonempty|].
  split; [apply format_emergency_numbers_last|]. split.
  - intros Hm Hp Hh. unfold format_emergency_numbers. rewrite Hm, Hp.
    destruct Hh as [->| ->]; reflexivity.
  - intros m p h Hm Hm' Hp Hp' Hh Hh' Hna. unfold format_emergency_numbers.
    rewrite Hm, Hp, Hh. cbn [truthy fmt py_str_eq]. rewrite Hm', Hp', Hh'.
    destruct (String.eqb_spec h "not available"); [done|]. reflexivity.
Qed.

End NumberService.

Lemma emergency_info_failure_is_cached_run :
  fst (@get_emergency_info table_lib (reply_with text_numbers) None
         (snd (@get_emergency_info table_lib unavailable None ∅)))
  = Ok (default_info None).
Proof.
  destruct (@emergency_info_failure_is_cached table_lib unavailable None ∅
              CapabilityError (lookup_empty _) eq_refl) as [E1 E2].
  rewrite E1. cbn [snd]. by rewrite E2.
Defined.

(** ** The location heuristic *)

(** X8.  [detect_user_location] reads user turns only and returns the first
    match in history order: on a concatenation it answers for the first
    part when that has a match and for the second otherwise, and removing
    every assistant turn does not change its answer. *)
Theorem detect_user_location_first_user_match (h1 h2 : list Turn) :
  detect_user_location (h1 ++ h2)
  = match detect_user_location h1 with
    | Some loc => Some loc
    | None => detect_user_location h2
    end
  /\ detect_user_location (List.filter is_user h1) = detect_user_location h1.
Proof.
  split.
  - induction h1 as [|t h1 IH]; [done|]. cbn [app detect_user_location].
    destruct (String.eqb (role t) "user"); [|done].
    destruct (existsb _ _); [|done].
    by destruct (location_in_words _).
  - induction h1 as [|t h1 IH]; [done|]. cbn [List.filter detect_user_location].
    unfold is_user at 1. destruct (String.eqb (role t) "user") eqn:E; [|done].
    cbn [detect_user_location]. rewrite E, IH. done.
Qed.

(** ** Grounding keywords *)

Lemma lower_app (a b : string) : Text.lower (a +:+ b) = Text.lower a +:+ Text.lower b.
Proof.
  induction a as [|x a IH]; [done|]. rewrite append_cons. cbn [Text.lower].
  by rewrite IH, append_cons.
Qed.

Lemma contains_of_startswith (t s : string) :
  Text.startswith t s = true -> Text.contains t s = true.
Proof. intros H. destruct s; cbn [Text.contains]; by rewrite H. Qed.

Lemma contains_intro (t a b : string) : Text.contains t (a +:+ t +:+ b) = true.
Proof.
  induction a as [|x a IH].
  - rewrite append_nil_l. apply contains_of_startswith, startswith_app.
  - rewrite append_cons. cbn [Text.contains]. rewrite IH. apply orb_true_r.
Qed.

(** X9.  The grounding test is a case-insensitive substring test: a reply
    that holds a grounding keyword anywhere, in any letter case, also
    inside a longer word, counts as a grounding reply. *)
Theorem has_grounding_substring_any_case (k a s b : string) :
  In k grounding_keywords ->
  Text.lower s = k ->
  has_grounding (a +:+ s +:+ b) = true.
Proof.
  intros Hk Hs. unfold has_grounding. apply existsb_exists. exists k. split; [done|].
  rewrite !lower_app, Hs. apply contains_intro.
Qed.

Lemma has_grounding_substring_any_case_run :
  has_grounding "What a SITuation" = true.
Proof.
  apply (has_grounding_substring_any_case "sit" "What a " "SIT" "uation");
    [cbn; tauto|reflexivity].
Defined.

(** ** Cleaning the model's JSON *)

Lemma split_go_pieces (sep s : string) :
  sep <> EmptyString -> Text.contains sep s = true ->
  snd (Text.split_go sep O s) <> [].
Proof.
  intros Hsep. induction s as [|c s IH]; intros H.
  - by rewrite contains_nil in H.
  - cbn [Text.contains] in H. cbn [Text.split_go].
    destruct (Text.startswith sep (String c s)).
    + cbn [snd]. by destruct (Text.split_go sep (String.length sep - 1) s).
    + cbn [orb] in H. specialize (IH H).
      destruct (Text.split_go sep O s) as [p ps]. done.
Qed.

Lemma split_second (sep s : string) :
  sep <> EmptyString -> Text.contains sep s = true ->
  exists piece, index (Text.split sep s) 1 = Ok piece.
Proof.
  intros Hsep H. pose proof (split_go_pieces sep s Hsep H) as Hne.
  unfold Text.split. destruct (Text.split_go sep O s) as [p ps]. cbn [snd] in Hne.
  destruct ps as [|q ps]; [done|]. by exists q.
Qed.

Lemma split_first (sep s : string) :
  exists piece, index (Text.split sep s) 0 = Ok piece.
Proof.
  unfold Text.split. destruct (Text.split_go sep O s) as [p ps]. by exists p.
Qed.

Lemma substring_zero (n : nat) (s : string) : String.substring n 0 s = EmptyString.
Proof.
  revert n. induction s as [|c s IH]; intros [|n]; cbn; auto.
Qed.

(** Where [find] finds the character, a non-empty slice from there starts
    with it. *)
Lemma find_char_found (c : ascii) (s : string) (m : nat) :
  Text.mem_char c s = true ->
  0 <= Text.find_char c s
  /\ exists rest,
       String.substring (Z.to_nat (Text.find_char c s)) (S m) s = String c rest.
Proof.
  induction s as [|d s IH]; [done|]. cbn [Text.mem_char Text.find_char].
  destruct (Ascii.eqb c d) eqn:E.
  - intros _. apply Ascii.eqb_eq in E. subst d. split; [done|].
    cbn. by eexists.
  - cbn [orb]. intros H. destruct (IH H) as [Hpos [rest Hrest]].
    destruct (Z.ltb_spec (Text.find_char c s) 0); [lia|].
    split; [lia|]. exists rest.
    replace (Z.to_nat (Text.find_char c s + 1)) with (S (Z.to_nat (Text.find_char c s)))
      by lia.
    cbn [String.substring]. exact Hrest.
Qed.

Lemma find_char_bound (c : ascii) (s : string) :
  Text.find_char c s < Z.of_nat (String.length s).
Proof.
  induction s as [|d s IH]; [cbn; lia|]. cbn [Text.find_char String.length].
  destruct (Ascii.eqb c d); [lia|].
  destruct (Z.ltb_spec (Text.find_char c s) 0); lia.
Qed.

Lemma rfind_char_bound (c : ascii) (s : string) :
  -1 <= Text.rfind_char c s < Z.of_nat (String.length s).
Proof.
  induction s as [|d s IH]; [cbn; lia|]. cbn [Text.rfind_char String.length].
  destruct (Z.leb_spec 0 (Text.rfind_char c s)); [lia|].
  destruct (Ascii.eqb c d); lia.
Qed.

(** The brace step of [clean_json_response]. *)
Lemma brace_slice (text : string) :
  Text.mem_char "{"%char text = true ->
  let t := Text.slice (Text.find_char "{"%char text)
                      (Text.rfind_char "}"%char text + 1) text in
  t = EmptyString \/ Text.startswith "{" t = true.
Proof.
  intros Hmem t. subst t. unfold Text.slice, Text.clamp.
  pose proof (find_char_bound "{"%char text) as Hf.
  pose proof (rfind_char_bound "}"%char text) as Hr.
  set (len := Z.of_nat (String.length text)) in *.
  set (i := Text.find_char "{"%char text) in *.
  set (j := Text.rfind_char "}"%char text) in *.
  assert (Hi : 0 <= i) by apply (find_char_found "{"%char text 0 Hmem).
  destruct (Z.ltb_spec i 0); [lia|]. destruct (Z.ltb_spec (j + 1) 0); [lia|].
  rewrite (Z.min_l i) by lia. rewrite (Z.min_l (j + 1)) by lia.
  destruct (Z.to_nat (j + 1 - i)) as [|m] eqn:E.
  - left. apply substring_zero.
  - right. unfold i. destruct (find_char_found "{"%char text m Hmem) as [_ [rest ->]].
    cbn. reflexivity.
Qed.

(** X10.  [clean_json_response] never raises, although it subscripts the
    results of [split]: the second piece is only taken when the fence is in
    the text.  Its result is empty, or starts with an opening brace, or
    holds no opening brace at all: whatever precedes the first brace is
    cut. *)
Theorem clean_json_response_total (text : string) :
  exists t, clean_json_response text = Ok t
    /\ (t = EmptyString \/ Text.startswith "{" t = true
        \/ Text.contains "{" t = false).
Proof.
  assert (Hstep : forall u, exists t,
             (if Text.contains "{" u
              then Ok (Text.slice (Text.find_char "{"%char u)
                                  (Text.rfind_char "}"%char u + 1) u)
              else Ok u) = Ok t
             /\ (t = EmptyString \/ Text.startswith "{" t = true
                 \/ Text.contains "{" t = false)).
  { intros u. destruct (Text.contains "{" u) eqn:Hu.
    - eexists. split; [reflexivity|]. rewrite contains_char in Hu.
      destruct (brace_slice u Hu) as [H|H]; auto.
    - exists u. auto. }
  unfold clean_json_response, rbind.
  destruct (Text.contains fence_json (Text.strip text)) eqn:Hj.
  - destruct (split_second fence_json (Text.strip text) ltac:(done) Hj) as [a ->].
    destruct (split_first fence a) as [b ->]. apply Hstep.
  - destruct (Text.contains fence (Text.strip text)) eqn:Hf.
    + destruct (split_second fence (Text.strip text) ltac:(done) Hf) as [a ->].
      destruct (split_first fence a) as [b ->]. apply Hstep.
    + apply Hstep.
Qed.

(** ** The chat handler, beyond the claims *)

(** X11.  A request without a usable message leaves no trace: with the
    message absent, null, falsy or a string of whitespace only, the answer
    is the 400 body and the server is as before; with a message that is
    neither falsy nor a string the answer is the 500 body and the server is
    as before.  No component is called in either case. *)
Theorem chat_rejects_unusable_message (C : Components) (req : Request) (st : Server) :
  (truthy (req_message req) = false
   \/ (exists s, req_message req = PyStr s /\ Text.strip s = EmptyString) ->
   chat C req st = (no_message_response, st))
  /\ (truthy (req_message req) = true -> (forall s, req_message req <> PyStr s) ->
      chat C req st = (error_response, st)).
Proof.
  split.
  - intros H. assert (Hum : request_message req = Ok EmptyString).
    { unfold request_message. destruct H as [->|(s & -> & Hs)]; [done|].
      rewrite Hs. by destruct (truthy (PyStr s)). }
    unfold_handler. by rewrite Hum.
  - intros Ht Hns. assert (Hum : request_message req = Raise AttributeError).
    { unfold request_message. rewrite Ht.
      destruct (req_message req) as [| | | |s| |]; try done. by destruct (Hns s). }
    unfold_handler. by rewrite Hum.
Qed.

Lemma chat_rejects_unusable_message_run :
  chat (@production table_lib calm_caps) empty_body new_server
  = (no_message_response, new_server).
Proof.
  apply (proj1 (chat_rejects_unusable_message (@production table_lib calm_caps)
                  empty_body new_server)).
  by left.
Defined.

Lemma add_message_histories_congr sid r c now ch ch' :
  histories ch' = histories ch -> max_length ch' = max_length ch ->
  histories (add_message sid r c now ch') = histories (add_message sid r c now ch).
Proof. intros Hh Hm. unfold add_message. cbn [histories]. by rewrite Hh, Hm. Qed.

Lemma detect_loop_result_histories sid r ch b ch' :
  detect_loop sid r ch = (b, ch') ->
  histories ch' = histories ch /\ max_length ch' = max_length ch.
Proof.
  intros H. pose proof (detect_loop_histories sid r ch) as Hd.
  by rewrite H in Hd.
Qed.

(** X12.  Every request answered 200 stores exactly two turns in its
    session: the user's message, then the reply that the response carries,
    be it the crisis referral, the refined reply or the pattern-breaking
    text; the history is the one [add_message] gives for these two turns. *)
Theorem delivered_reply_is_stored (C : Components) (req : Request) (st : Server) :
  status (fst (chat C req st)) = 200 ->
  exists um reply,
    request_message req = Ok um
    /\ reply_of (fst (chat C req st)) = PyStr reply
    /\ histories (conversation_history (snd (chat C req st)))
       = histories
           (add_message (request_session req) "assistant" reply (now_reply req)
              (add_message (request_session req) "user" um (now_user req)
                 (conversation_history st))).
Proof.
  unfold request_session. unfold_handler.
  destruct (request_message req) as [um|e] eqn:Hum; [|cbn; discriminate].
  destruct (Text.nonempty um) eqn:Hne; cbn [negb]; [|cbn; discriminate].
  handler_cases; try (cbn; discriminate); intros _; exists um; eexists;
    (split; [reflexivity|]); (split; [reflexivity|]);
    first [ reflexivity
          | destruct (detect_loop_result_histories _ _ _ _ _ Hloop) as [Hh Hm];
            by apply add_message_histories_congr ].
Qed.

Lemma delivered_reply_is_stored_run :
  exists um reply,
    request_message hello = Ok um
    /\ reply_of (fst (chat (@production table_lib calm_caps) hello new_server))
       = PyStr reply
    /\ histories (conversation_history
                    (snd (chat (@production table_lib calm_caps) hello new_server)))
       = histories
           (add_message (request_session hello) "assistant" reply (now_reply hello)
              (add_message (request_session hello) "user" um (now_user hello)
                 (conversation_history new_server))).
Proof.
  apply (delivered_reply_is_stored (@production table_lib calm_caps) hello new_server).
  vm_compute. reflexivity.
Defined.

(** What a request does to the [ConversationHistory] object is a sequence
    of its mutating calls, all on the request's session. *)
Lemma chat_as_ops C req st :
  exists ops,
    Forall (fun o => op_session o = request_session req) ops
    /\ conversation_history (snd (chat C req st))
       = run_ops ops (conversation_history st).
Proof.
  unfold request_session. unfold_handler.
  destruct (request_message req) as [um|e] eqn:Hum; [|by exists []].
  destruct (Text.nonempty um) eqn:Hne; cbn [negb]; [|by exists []].
  handler_cases;
    first
      [ eexists [OpAdd _ _ _ _; OpDetectLoop _ _; OpAdd _ _ _ _];
        split; [by repeat constructor|];
        unfold run_ops; cbn [fold_left apply_op]; rewrite Hloop; reflexivity
      | eexists [OpAdd _ _ _ _; OpAdd _ _ _ _];
        split; [by repeat constructor|]; reflexivity
      | eexists [OpAdd _ _ _ _];
        split; [by repeat constructor|]; reflexivity ].
Qed.

Lemma run_ops_other sid ops ch :
  Forall (fun o => op_session o <> sid) ops ->
  get_history sid (run_ops ops ch) = get_history sid ch
  /\ window sid (run_ops ops ch) = window sid ch.
Proof.
  revert ch. induction ops as [|o ops IH]; intros ch Hops; [done|].
  inversion Hops as [|? ? Ho Hrest]; subst.
  unfold run_ops in *. cbn [fold_left].
  destruct (IH (apply_op ch o) Hrest) as [-> ->].
  destruct o as [s r c now|s resp|s]; cbn [apply_op op_session] in *.
  - split; [by apply add_message_other|done].
  - split; [|by apply detect_loop_window_other].
    unfold get_history. by rewrite (proj1 (detect_loop_histories s resp ch)).
  - unfold get_history, window, clear_session. cbn [histories loop_tracker].
    by rewrite !lookup_delete_ne.
Qed.

Lemma chat_locations_other C req st sid :
  sid <> request_session req ->
  user_locations (snd (chat C req st)) !! sid = user_locations st !! sid.
Proof.
  unfold request_session. unfold_handler.
  destruct (request_message req) as [um|e] eqn:Hum; [|done].
  destruct (Text.nonempty um) eqn:Hne; cbn [negb]; [|done].
  handler_cases; intros Hsid; try reflexivity; by rewrite lookup_insert_ne.
Qed.

(** X13.  A request changes one session only: the history, the loop window
    and the stored location of every session other than the request's are
    as before, whatever the components answer and however the request
    ends. *)
Theorem chat_touches_one_session (C : Components) (req : Request) (st : Server)
    (sid : string) :
  sid <> request_session req ->
  get_history sid (conversation_history (snd (chat C req st)))
  = get_history sid (conversation_history st)
  /\ window sid (conversation_history (snd (chat C req st)))
     = window sid (conversation_history st)
  /\ user_locations (snd (chat C req st)) !! sid = user_locations st !! sid.
Proof.
  intros Hsid.
  destruct (chat_as_ops C req st) as (ops & Hops & ->).
  assert (Hother : Forall (fun o => op_session o <> sid) ops).
  { eapply Forall_impl; [exact Hops|]. cbn. congruence. }
  destruct (run_ops_other sid ops (conversation_history st) Hother) as [-> ->].
  split; [done|]. split; [done|]. by apply chat_locations_other.
Qed.

Lemma chat_touches_one_session_run :
  get_history "other"
    (conversation_history (snd (chat (@production table_lib calm_caps) hello new_server)))
  = get_history "other" (conversation_history new_server).
Proof.
  apply (chat_touches_one_session (@production table_lib calm_caps) hello new_server
           "other").
  vm_compute. discriminate.
Defined.

Lemma handle_as_ops st ev :
  exists ops, conversation_history (handle st ev) = run_ops ops (conversation_history st).
Proof.
  destruct ev as [C req|sid]; cbn [handle].
  - destruct (chat_as_ops C req st) as (ops & _ & E). by exists ops.
  - by exists [OpClear (default "default" sid)].
Qed.

(** X14.  However many requests and clears the server has handled since it
    started, with whatever components and in whatever order, no session's
    history is longer than 50 turns and no session's loop window is longer
    than 5 replies. *)
Theorem served_state_stays_bounded (events : list Event) (sid : string) :
  (length (get_history sid (conversation_history (serve events new_server))) <= 50)%nat
  /\ (length (window sid (conversation_history (serve events new_server))) <= 5)%nat.
Proof.
  assert (Hinv : forall evs st,
             bounded (conversation_history st) /\ max_length (conversation_history st) = 50 ->
             bounded (conversation_history (serve evs st))
             /\ max_length (conversation_history (serve evs st)) = 50).
  { induction evs as [|ev evs IH]; intros st [Hb Hm]; [done|].
    unfold serve in *. cbn [fold_left]. apply IH.
    destruct (handle_as_ops st ev) as [ops ->].
    destruct (bounded_run_ops ops (conversation_history st)) as [Hb' Hm']; [lia|done|].
    split; [done|congruence]. }
  destruct (Hinv events new_server) as [Hb Hm].
  { split; [apply bounded_new|done]. }
  specialize (Hb sid). rewrite Hm in Hb. exact Hb.
Qed.

(** X15.  A location the server already holds for a session is never
    replaced by a request: it is still stored afterwards, and when the
    request is an emergency turn of that session the contact lookup is made
    for this stored location, without looking at the conversation. *)
Theorem known_location_is_kept (C : Components) (req : Request) (st : Server)
    (sid loc : string) :
  user_locations st !! sid = Some loc ->
  Text.nonempty loc = true ->
  user_locations (snd (chat C req st)) !! sid = Some loc
  /\ (sid = request_session req ->
      forall l, In (CallEmergencyInfo l) (calls_of C req st) -> l = Some loc).
Proof.
  intros Hk Hne. split.
  - destruct (decide (sid = request_session req)) as [->|Hsid];
      [|by rewrite chat_locations_other].
    revert Hk. unfold request_session. intros Hk. unfold_handler.
    destruct (request_message req) as [um|e] eqn:Hum; [|done].
    destruct (Text.nonempty um) eqn:Hnm; cbn [negb]; [|done].
    handler_cases; try exact Hk;
      match goal with
      | H : nonempty_opt (user_locations _ !! _) = false |- _ =>
          rewrite Hk in H; cbn [nonempty_opt] in H; rewrite Hne in H; discriminate H
      end.
  - intros ->. revert Hk. unfold request_session. intros Hk.
    unfold calls_of. unfold_handler.
    destruct (request_message req) as [um|e] eqn:Hum; [|by calls_norm].
    destruct (Text.nonempty um) eqn:Hnm; cbn [negb]; [|by calls_norm].
    handler_cases; calls_norm; cbn [In];
      intros l Hin; repeat destruct Hin as [Hin|Hin]; try done;
      first [ by injection Hin as <-
            | match goal with
              | H : nonempty_opt (user_locations _ !! _) = false |- _ =>
                  rewrite Hk in H; cbn [nonempty_opt] in H; rewrite Hne in H;
                  discriminate H
              end ].
Qed.

Lemma known_location_is_kept_run :
  user_locations (snd (chat (@production table_lib emergency_caps) danger located_server))
    !! "default" = Some "Pune"
  /\ ("default" = request_session danger ->
      forall l,
        In (CallEmergencyInfo l)
           (calls_of (@production table_lib emergency_caps) danger located_server) ->
        l = Some "Pune").
Proof.
  apply (known_location_is_kept (@production table_lib emergency_caps) danger
           located_server "default" "Pune").
  - vm_compute. reflexivity.
  - reflexivity.
Defined.

Lemma production_always_answers_aux {lib : PyLib} (caps : Capabilities) (req : Request)
    (st : Server) (um : string) :
  request_message req = Ok um ->
  Text.nonempty um = true ->
  status (fst (chat (production caps) req st)) = 200.
Proof.
  intros Hum Hne. unfold_handler. rewrite Hum, Hne. cbn [negb].
  handler_cases; try reflexivity; exfalso;
    first [ match goal with
            | H : emergency_format _ _ = Raise _ |- _ =>
                cbn [emergency_format production] in H; discriminate H
            end
          | by eapply production_analyze_total
          | by eapply production_detect_total
          | by eapply production_generate_total
          | by eapply production_refine_total
          | by eapply production_info_total ].
Qed.



(** X17.  The stages of a request run in one fixed order and none runs
    twice: the calls made are a prefix of pre-screen, emergency detection,
    draft, refinement, loop guard, with contact lookup and contact
    formatting between detection and draft on an emergency turn.  A request
    answered 400 made no call; one answered 200 made the pre-screen call
    only (blocked) or went through one of the two pipelines to the end. *)
Theorem stages_run_in_order (C : Components) (req : Request) (st : Server) :
  let stages := map stage_of (calls_of C req st) in
  (stages `prefix_of` calm_pipeline \/ stages `prefix_of` emergency_pipeline)
  /\ (status (fst (chat C req st)) = 400 -> stages = [])
  /\ (status (fst (chat C req st)) = 200 ->
      stages = [StagePreScreen] \/ stages = calm_pipeline \/ stages = emergency_pipeline).
Proof.
  unfold calls_of, calm_pipeline, emergency_pipeline. unfold_handler.
  destruct (request_message req) as [um|e] eqn:Hum.
  2:{ calls_norm. cbn. split; [left; by eexists|]. split; [done|discriminate]. }
  destruct (Text.nonempty um) eqn:Hne; cbn [negb].
  2:{ calls_norm. cbn. split; [left; by eexists|]. split; [done|discriminate]. }
  handler_cases; calls_norm; cbn [map stage_of status];
    (split; [first [left; by eexists | right; by eexists]|]);
    (split; [discriminate|]); try discriminate; intros _; auto.
Qed.

(** ** The two responders *)

Lemma split_once_absent (sep s : string) :
  Text.contains sep s = false -> Text.split_once sep s = [s].
Proof.
  induction s as [|c s IH]; cbn [Text.contains Text.split_once]; intros H.
  - by rewrite H.
  - apply orb_false_iff in H as [H1 H2]. by rewrite H1, (IH H2).
Qed.

(** X18.  The label is looked for without regard to case but cut out in
    lower case only: when the refiner's answer carries the label
    [refined reply:] in some other spelling and never in lower case, the
    cut finds nothing, the indexing fails, and the draft is returned
    unrefined. *)
Theorem refine_label_in_other_case `{PyLib} (llm : string -> result string)
    (ctx um draft : string) (em : bool) (p : PreCheck) (content : string) :
  llm (refine_prompt ctx um draft em p) = Ok content ->
  Text.contains "refined reply:" (Text.lower (Text.strip content)) = true ->
  Text.contains "refined reply:" (Text.strip content) = false ->
  CounterAI_refine llm ctx um draft em p = Ok draft.
Proof.
  intros Hllm Hlow Hraw. unfold CounterAI_refine. rewrite Hllm.
  cbn [rbind]. rewrite Hlow, (split_once_absent _ _ Hraw). reflexivity.
Qed.

Lemma refine_label_in_other_case_run :
  @CounterAI_refine table_lib (fun _ => Ok "Refined Reply: Stay with me.")
    "" "hello" "I hear you." false safe_pre_check
  = Ok "I hear you.".
Proof.
  apply (@refine_label_in_other_case table_lib
           (fun _ => Ok "Refined Reply: Stay with me.")
           "" "hello" "I hear you." false safe_pre_check
           "Refined Reply: Stay with me.");
    vm_compute; reflexivity.
Defined.








(** ** What the models are shown *)

Lemma newest_snoc_turn (n : nat) (h : list Turn) (t : Turn) :
  (0 < n)%nat -> newest n (h ++ [t]) = newest (n - 1) h ++ [t].
Proof.
  intros Hn. destruct n as [|k]; [lia|]. rewrite newest_snoc.
  by replace (S k - 1)%nat with k by lia.
Qed.

Lemma history_ends_with_new_turn sid r c now ch :
  0 < max_length ch ->
  exists earlier, get_history sid (add_message sid r c now ch) = earlier ++ [mkTurn r c now].
Proof.
  intros Hm. rewrite add_message_history by done.
  rewrite newest_snoc_turn by lia. by eexists.
Qed.

Lemma context_ends_with_new_turn sid um now ch :
  0 < max_length ch ->
  exists earlier,
    get_recent_context sid CONTEXT_WINDOW_SIZE (add_message sid "user" um now ch)
    = earlier +:+ "User: " +:+ um +:+ nl.
Proof.
  intros Hm. rewrite get_recent_context_positive by done.
  destruct (history_ends_with_new_turn sid "user" um now ch Hm) as [earlier ->].
  change (Z.to_nat CONTEXT_WINDOW_SIZE) with 10%nat.
  rewrite newest_snoc, format_turns_app.
  exists (format_turns (newest 9 earlier)). by f_equal.
Qed.

(** X20.  The current message is shown to the models twice.  It is stored
    before anything else, so the conversation context handed to the
    pre-screen and to the refiner ends with the line of the current
    message, and the history handed to the drafter ends with the current
    message as its last turn: each model gets it once there and once as
    the message itself. *)
Theorem models_see_current_message_twice (C : Components) (req : Request) (st : Server) :
  0 < max_length (conversation_history st) ->
  (forall um ctx, In (CallAnalyze um ctx) (calls_of C req st) ->
     exists earlier, ctx = earlier +:+ "User: " +:+ um +:+ nl)
  /\ (forall ctx um d em pcd, In (CallRefine ctx um d em pcd) (calls_of C req st) ->
        exists earlier, ctx = earlier +:+ "User: " +:+ um +:+ nl)
  /\ (forall um h, In (CallGenerate um h) (calls_of C req st) ->
        exists earlier, h = earlier ++ [mkTurn "user" um (now_user req)]).
Proof.
  intros Hm. unfold calls_of. unfold_handler.
  destruct (request_message req) as [um'|e] eqn:Hum; [|by calls_norm].
  destruct (Text.nonempty um') eqn:Hne; cbn [negb]; [|by calls_norm].
  pose proof (context_ends_with_new_turn (or_default (req_session_id req) "default")
                um' (now_user req) (conversation_history st) Hm) as Hctx.
  pose proof (history_ends_with_new_turn (or_default (req_session_id req) "default")
                "user" um' (now_user req) (conversation_history st) Hm) as Hhist.
  handler_cases; calls_norm; cbn [In];
    (split; [|split]); intros; 
    repeat match goal with H : _ \/ _ |- _ => destruct H as [H|H] end;
    try done;
    match goal with H : _ = _ |- _ => injection H; intros; subst; assumption end.
Qed.

Lemma models_see_current_message_twice_run :
  exists earlier, "User: hello" +:+ nl = earlier +:+ "User: " +:+ "hello" +:+ nl.
Proof.
  apply (proj1 (models_see_current_message_twice (@production table_lib calm_caps) hello
                  new_server ltac:(reflexivity))
           "hello" ("User: hello" +:+ nl)).
  vm_compute. left. reflexivity.
Defined.

(** ** What a request reads *)

Lemma add_message_agree sid r c now ch1 ch2 :
  max_length ch1 = max_length ch2 ->
  get_history sid ch1 = get_history sid ch2 ->
  get_history sid (add_message sid r c now ch1)
  = get_history sid (add_message sid r c now ch2).
Proof.
  unfold get_history, add_message. cbn [histories]. intros -> ->.
  by rewrite !lookup_insert_eq.
Qed.

Lemma detect_loop_agree sid cand ch1 ch2 :
  window sid ch1 = window sid ch2 ->
  fst (detect_loop sid cand ch1) = fst (detect_loop sid cand ch2).
Proof. intros Hw. rewrite !detect_loop_eq, Hw. by destruct (_ && _). Qed.

(** X21.  The answer to a request is made from the request's own session
    only: on two servers that agree on the history cap, on this session's
    history, loop window and stored location, and on the cache of
    emergency numbers, the same request gets the same response and makes
    the same calls with the same arguments, whatever the other sessions
    hold. *)
Theorem response_depends_on_own_session (C : Components) (req : Request)
    (st1 st2 : Server) :
  max_length (conversation_history st1) = max_length (conversation_history st2) ->
  get_history (request_session req) (conversation_history st1)
  = get_history (request_session req) (conversation_history st2) ->
  window (request_session req) (conversation_history st1)
  = window (request_session req) (conversation_history st2) ->
  user_locations st1 !! request_session req = user_locations st2 !! request_session req ->
  emergency_cache st1 = emergency_cache st2 ->
  fst (chat C req st1) = fst (chat C req st2)
  /\ calls_of C req st1 = calls_of C req st2.
Proof.
  unfold request_session. intros Hm Hh Hw Hl Hc.
  set (sid := or_default (req_session_id req) "default") in *.
  assert (E2 : forall r c now,
             get_history sid (add_message sid r c now (conversation_history st1))
             = get_history sid (add_message sid r c now (conversation_history st2))).
  { intros. by apply add_message_agree. }
  assert (E1 : forall um now,
             get_recent_context sid CONTEXT_WINDOW_SIZE
               (add_message sid "user" um now (conversation_history st1))
             = get_recent_context sid CONTEXT_WINDOW_SIZE
                 (add_message sid "user" um now (conversation_history st2))).
  { intros. unfold get_recent_context. by rewrite E2. }
  assert (E3 : forall cand r c now,
             fst (detect_loop sid cand (add_message sid r c now (conversation_history st1)))
             = fst (detect_loop sid cand (add_message sid r c now (conversation_history st2)))).
  { intros. by apply detect_loop_agree. }
  unfold calls_of. unfold_handler. fold sid.
  destruct (request_message req) as [um|e] eqn:Hum.
  2:{ cbn [fst snd calls]. by rewrite !drop_all. }
  destruct (Text.nonempty um) eqn:Hne; cbn [negb].
  2:{ cbn [fst snd calls]. by rewrite !drop_all. }
  repeat (cbn beta iota zeta delta [fst snd negb conversation_history user_locations
                                      emergency_cache calls] in *;
          rewrite ?E1, ?E2, ?Hl, ?Hc;
          try handler_case);
    repeat rewrite <- app_assoc; rewrite ?drop_app_length;
    try (split; reflexivity);
    match goal with
    | H1 : detect_loop _ ?cand (add_message _ ?r ?c ?now (conversation_history st1)) = _,
      H2 : detect_loop _ ?cand (add_message _ ?r ?c ?now (conversation_history st2)) = _
      |- _ =>
        pose proof (E3 cand r c now) as E; rewrite H1, H2 in E; discriminate E
    end.
Qed.

Lemma response_depends_on_own_session_run :
  fst (chat (@production table_lib calm_caps) hello new_server)
  = fst (chat (@production table_lib calm_caps) hello busy_server)
  /\ calls_of (@production table_lib calm_caps) hello new_server
     = calls_of (@production table_lib calm_caps) hello busy_server.
Proof.
  apply (response_depends_on_own_session (@production table_lib calm_caps) hello
           new_server busy_server); vm_compute; reflexivity.
Defined.

(** ** Clearing a session *)



(** ** A total outage *)

(** X23.  With every model down, a message with explicit danger language
    is answered with the urgent line as the rule-based fallback writes it:
    the pre-screen fails open, detection falls back to no emergency, the
    refiner returns the draft and the loop guard does not fire, so nothing
    replaces the placeholder and the reply that goes out still reads
    [EMERGENCY_NUMBER]. *)
Theorem outage_reply_keeps_placeholder {lib : PyLib} (caps : Capabilities)
    (req : Request) (st : Server) (um : string) :
  request_message req = Ok um ->
  Text.nonempty um = true ->
  existsb (fun s => Text.contains s (Text.lower (Text.strip um))) danger_indicators = true ->
  (forall prompt, exists e, pre_check_model caps prompt = Raise e) ->
  (forall prompt, exists e, emergency_model caps prompt = Raise e) ->
  (forall h m, exists e, soulene_model caps h m = Raise e) ->
  (forall prompt, exists e, counter_llm caps prompt = Raise e) ->
  status (fst (chat (production caps) req st)) = 200
  /\ reply_of (fst (chat (production caps) req st)) = PyStr urgent_line
  /\ Text.contains emergency_token urgent_line = true.
Proof.
  intros Hum Hne Hdanger Hpre Hdet Hgen Href.
  assert (A : forall ctx, pre_check_analyze (production caps) um ctx = Ok safe_pre_check).
  { intros ctx. cbn [pre_check_analyze production].
    unfold PreCheckCounter_analyze, try_except, rbind.
    by destruct (Hpre (pre_check_prompt um ctx)) as [e ->]. }
  assert (D : emergency_detect (production caps) um
              = Ok (false, PyStr "none", PyStr "low")).
  { cbn [emergency_detect production].
    unfold EmergencyDetector_detect, try_except, rbind.
    by destruct (Hdet um) as [e ->]. }
  assert (G : forall h, soulene_generate (production caps) um h = Ok urgent_line).
  { intros h. by rewrite generate_falls_back, rule_based_urgent. }
  assert (R : forall ctx d p, counter_refine (production caps) ctx um d false p = Ok d).
  { intros. by apply refine_fails_open. }
  assert (L : forall sid ch, fst (detect_loop sid urgent_line ch) = false).
  { intros. rewrite detect_loop_eq.
    replace (has_grounding urgent_line) with false by (vm_compute; reflexivity).
    done. }
  split; [|split; [|vm_compute; reflexivity]].
  - by apply (production_always_answers_aux caps req st um).
  - unfold_handler. rewrite Hum, Hne. cbn [negb].
    repeat (cbn beta iota zeta delta [fst snd negb conversation_history user_locations
                                        emergency_cache calls substitute_number] in *;
            rewrite ?A, ?D, ?G, ?R;
            try handler_case);
      first [ reflexivity
            | vm_compute in Hblock; discriminate Hblock
            | match goal with
              | H : detect_loop ?sid urgent_line ?ch = _ |- _ =>
                  pose proof (L sid ch) as E; rewrite H in E; discriminate E
              end ].
Qed.

Lemma outage_reply_keeps_placeholder_run :
  status (fst (chat (@production table_lib dead_caps) danger new_server)) = 200
  /\ reply_of (fst (chat (@production table_lib dead_caps) danger new_server))
     = PyStr urgent_line
  /\ Text.contains emergency_token urgent_line = true.
Proof.
  apply (@outage_reply_keeps_placeholder table_lib dead_caps danger new_server
           "I am going to kill myself");
    first [ vm_compute; reflexivity
          | intros; eexists; reflexivity ].
Defined.
